(** * adp-scrape: a shallow embedding of [adp.py]

    The development follows the layout of the Python module: first the
    few builtins of Python and of its standard library that [adp.py]
    calls ([str.startswith], [str.replace], [str.split], [sorted],
    [os.path.join], ...), then the world the program runs in (files,
    console, HTTP traffic), then the methods of [PayCheckFetcher] and the
    [cli] entry point, and finally the properties of the specification.

    Conventions.
    - A Python [str] is a [string]; characters are compared by code, as
      Python compares code points.
    - The dict [paystub_url_by_date] is an association list in insertion
      order, which is the order [dict.items()] iterates in.
    - Paths follow [posixpath]; the file system is a finite map from path
      strings to file contents: what the operating system answers for
      a path as the program spells it. Two spellings of one path are two
      keys, so what is proved about a file written by the program is
      stated for dates in the format [YYYY-MM-DD], whose file names
      have one spelling and lie in the working directory. *)

From Stdlib Require Import ZArith Ascii DecimalString Sorting.Sorted Permutation.
From Stdlib Require String.
From stdpp Require Import base gmap strings list fin_maps.

Local Open Scope Z_scope.

(** ** Python builtins used by [adp.py] *)

Module Py.

(** [s.startswith(p)] *)
Definition startswith (s p : string) : bool := String.prefix p s.

(** [s.endswith(c)] for a one-character suffix. *)
Fixpoint ends_with_char (s : string) (c : ascii) : bool :=
  match s with
  | EmptyString => false
  | String a EmptyString => bool_decide (a = c)
  | String _ s' => ends_with_char s' c
  end.

(** [s.replace(old, new)] for a non-empty [old]: every non-overlapping
    occurrence of [old], scanning from the left, is replaced by [new].
    [skip] counts the characters of a matched occurrence that are still
    to be dropped. *)
Fixpoint replace_from (skip : nat) (old new s : string) : string :=
  match s with
  | EmptyString => EmptyString
  | String c s' =>
      match skip with
      | S k => replace_from k old new s'
      | O =>
          if String.prefix old s
          then new +:+ replace_from (Nat.pred (String.length old)) old new s'
          else String c (replace_from O old new s')
      end
  end.

Definition replace (s old new : string) : string := replace_from O old new s.

(** [s.split(sep)] for a one-character separator: the list of the
    pieces between the separators; it is never empty. *)
Fixpoint split (s : string) (sep : ascii) : list string :=
  match s with
  | EmptyString => [EmptyString]
  | String c s' =>
      if bool_decide (c = sep) then EmptyString :: split s' sep
      else match split s' sep with
           | piece :: pieces => String c piece :: pieces
           | [] => [String c EmptyString]
           end
  end.

(** [old in s] *)
Fixpoint contains (s old : string) : bool :=
  match s with
  | EmptyString => startswith s old
  | String _ s' => startswith s old || contains s' old
  end.

(** [c in s] for a character. *)
Fixpoint has_char (s : string) (c : ascii) : bool :=
  match s with
  | EmptyString => false
  | String a s' => bool_decide (a = c) || has_char s' c
  end.

(** [str(n)] for an integer. *)
Definition str_of_int (n : Z) : string := NilZero.string_of_int (Z.to_int n).

(** [posixpath.join(a, b)]: an absolute [b] discards [a]; an empty [a],
    or one that already ends with the separator, gets no separator. *)
Definition os_path_join (a b : string) : string :=
  if startswith b "/" then b
  else if bool_decide (a = "") || ends_with_char a "/"%char then a +:+ b
  else a +:+ "/" +:+ b.

(** The order of [sorted] on the two-element lists [[date, url]]: lists
    compare by their first differing element. *)
Definition item_ltb (a b : string * string) : bool :=
  match String.compare a.1 b.1 with
  | Lt => true
  | Eq => String.ltb a.2 b.2
  | Gt => false
  end.

(** [sorted(l)]: a stable sort that only uses [<]. An element goes in
    front of the first element that is not smaller than it. *)
Fixpoint insert_item (x : string * string) (l : list (string * string))
  : list (string * string) :=
  match l with
  | [] => [x]
  | y :: l' => if item_ltb y x then y :: insert_item x l' else x :: l
  end.

Fixpoint sorted (l : list (string * string)) : list (string * string) :=
  match l with
  | [] => []
  | x :: l' => insert_item x (sorted l')
  end.

End Py.

(** ** The file system *)

Abbreviation bytes := (list Byte.byte).
Abbreviation filesystem := (gmap string bytes).

(** [os.path.exists(p)] *)
Definition os_path_exists (fs : filesystem) (p : string) : bool :=
  bool_decide (is_Some (fs !! p)).

(** ** Pure helpers of [PayCheckFetcher] *)

(** [_transform_download_url(url)] *)
Definition _transform_download_url (url : string) : string :=
  if negb (Py.startswith url "/l2") then url
  else Py.replace url "/l2" "https://my.adp.com".

(** [_expected_file_name(date)] *)
Definition _expected_file_name (date : string) : string := date +:+ ".pdf".

(** [date.split('-')[0]] *)
Definition year_of (date : string) : string :=
  hd EmptyString (Py.split date "-"%char).

(** The body of the loop of [get_needed_paystubs]: [need] is the list
    built so far. *)
Definition needed_step (fs : filesystem) (need : list (string * string))
    (item : string * string) : list (string * string) :=
  let '(date, url) := item in
  let artifact := _expected_file_name date in
  if os_path_exists fs artifact then need
  else
    let year := year_of date in
    if os_path_exists fs (Py.os_path_join year artifact) then need
    else need ++ [(date, url)].

(** [get_needed_paystubs()], as a function of the file system and of the
    mapping [paystub_url_by_date]. *)
Definition get_needed_paystubs (fs : filesystem)
    (paystub_url_by_date : list (string * string)) : list (string * string) :=
  Py.sorted (fold_left (needed_step fs) paystub_url_by_date []).

(** ** The world the program runs in *)

(** Exceptions that can escape from [adp.py]. [Unsupported] marks the
    places where the model is typed and Python is not (see
    [add_statement] and [add_dict_to_cookiejar]): the model stops there
    and says nothing about what the program does. *)
Inductive exn :=
| ValueError | KeyError | TypeError | JSONDecodeError | ConnectionError
| FileNotFoundError | Unsupported.

Inductive result (A : Type) :=
| Ok (a : A)
| Raise (e : exn).
Arguments Ok {A} a.
Arguments Raise {A} e.

(** A value produced by [json.loads]: an object is the dict it was parsed
    into, so a key has one entry. Numbers are the integers. *)
#[local] Set Warnings "-register-all".
Inductive json :=
| JNull
| JBool (b : bool)
| JNum (n : Z)
| JStr (s : string)
| JArr (l : list json)
| JObj (l : list (string * json)).

Inductive http_method := GET | POST.

(** One call made through the [requests] session. *)
Record Request := mkRequest {
  req_method : http_method;
  req_url : string;
  req_data : list (string * string);    (* form fields, [data=] *)
  req_params : list (string * string);  (* query string, [params=] *)
  req_stream : bool
}.

Record Response := mkResponse {
  status_code : Z;
  text : string;
  raw : bytes                            (* the decoded body *)
}.

Record World := mkWorld {
  files : filesystem;
  stdout : list string;                  (* lines printed, oldest first *)
  calls : list Request;                  (* HTTP calls made, oldest first *)
  jar : list (string * json);            (* cookies added by the program *)
  sessions_created : nat;
  sessions_closed : nat
}.

(** Computations: they read and change the world, and either return a
    value or raise; what was done before an exception stays done. *)
Definition M (A : Type) : Type := World -> result A * World.

Definition ret {A} (a : A) : M A := fun w => (Ok a, w).
Definition raise {A} (e : exn) : M A := fun w => (Raise e, w).
Definition bind {A B} (c : M A) (k : A -> M B) : M B :=
  fun w => match c w with
           | (Ok a, w') => k a w'
           | (Raise e, w') => (Raise e, w')
           end.
Definition lift {A} (r : result A) : M A := fun w => (r, w).

Notation "'do' x <- c ;; k" := (bind c (fun x => k))
  (at level 10, x name, c at level 99, k at level 200).
Notation "c ;;; k" := (bind c (fun _ => k))
  (at level 100, k at level 200, right associativity).

(** [for x in l: body(x)] *)
Fixpoint for_each {A} (l : list A) (body : A -> M unit) : M unit :=
  match l with
  | [] => ret tt
  | x :: l' => body x ;;; for_each l' body
  end.

(** [print(line)] *)
Definition print (line : string) : M unit :=
  fun w => (Ok tt, mkWorld (files w) (stdout w ++ [line]) (calls w) (jar w)
                     (sessions_created w) (sessions_closed w)).

(** [os.path.exists(p)] on the current file system. *)
Definition path_exists (p : string) : M bool :=
  fun w => (Ok (os_path_exists (files w) p), w).

(** The directory part of a path: what comes before its file name, up to
    and with the last ['/']; empty for a name in the working directory. *)
Fixpoint directory_part (name : string) : string :=
  match name with
  | EmptyString => EmptyString
  | String c name' =>
      if Py.has_char name "/" then String c (directory_part name')
      else EmptyString
  end.

(** [open(name, 'wb')]: the file is created, or emptied if it is there.
    A name with a directory part needs that directory to be there, or
    the call raises ([FileNotFoundError], or [NotADirectoryError] when
    a file is in the way); the directory is asked for by its path with
    the final ['/'], which exists for a directory only. Permissions and
    the like are not modelled. *)
Definition open_wb (name : string) : M unit :=
  fun w =>
    let dir := directory_part name in
    if bool_decide (dir = "") || os_path_exists (files w) dir then
      (Ok tt, mkWorld (<[name := []]> (files w)) (stdout w) (calls w)
                (jar w) (sessions_created w) (sessions_closed w))
    else (Raise FileNotFoundError, w).

(** [shutil.copyfileobj(src, out_f)] into the file just opened. *)
Definition copyfileobj (src : bytes) (name : string) : M unit :=
  fun w => (Ok tt, mkWorld (alter (fun old => old ++ src) name (files w))
                     (stdout w) (calls w) (jar w)
                     (sessions_created w) (sessions_closed w)).

(** Text mode reading translates ['\r\n'] and ['\r'] to ['\n']. *)
Fixpoint universal_newlines (s : string) : string :=
  match s with
  | EmptyString => EmptyString
  | String c s' =>
      if bool_decide (c = "013"%char) then
        match s' with
        | String c' s'' =>
            if bool_decide (c' = "010"%char)
            then String "010"%char (universal_newlines s'')
            else String "010"%char (universal_newlines s')
        | EmptyString => String "010"%char EmptyString
        end
      else String c (universal_newlines s')
  end.

(** [open(path).read()], for a file that is there; one byte is one
    character. *)
Definition read_text (fs : filesystem) (path : string) : option string :=
  (fun b => universal_newlines (String.string_of_list_byte b)) <$> fs !! path.

(** [requests.utils.add_dict_to_cookiejar(session.cookies, d)] for
    values that are strings. What [requests] does with a value of
    another type is outside the model, and the run stops there. *)
Definition is_json_string (j : json) : bool :=
  match j with JStr _ => true | _ => false end.

Definition add_dict_to_cookiejar (d : list (string * json)) : M unit :=
  fun w =>
    if forallb (fun kv => is_json_string kv.2) d then
      (Ok tt, mkWorld (files w) (stdout w) (calls w) (jar w ++ d)
                (sessions_created w) (sessions_closed w))
    else (Raise Unsupported, w).

(** [obj[key]] for a string key. *)
Definition getitem (obj : json) (key : string) : result json :=
  match obj with
  | JObj fields =>
      match List.find (fun kv => bool_decide (kv.1 = key)) fields with
      | Some kv => Ok kv.2
      | None => Raise KeyError
      end
  | _ => Raise TypeError
  end.

(** What [for x in obj] goes through. *)
Definition iterate (obj : json) : result (list json) :=
  match obj with
  | JArr l => Ok l
  | JObj fields => Ok (map (fun kv => JStr kv.1) fields)
  | JStr s => Ok (map (fun c => JStr (String c EmptyString))
                      (String.list_ascii_of_string s))
  | _ => Raise TypeError
  end.

(** [d[k] = v] on a dict kept in insertion order. *)
Fixpoint dict_set (d : list (string * string)) (k v : string)
  : list (string * string) :=
  match d with
  | [] => [(k, v)]
  | (k', v') :: d' =>
      if bool_decide (k' = k) then (k', v) :: d' else (k', v') :: dict_set d' k v
  end.

Record PayCheckFetcher := mkFetcher {
  username : string;
  password : string;
  paystub_url_by_date : list (string * string)
}.

Definition LOGIN_URL : string :=
  "https://agateway.adp.com/siteminderagent/forms/login.fcc".
Definition LANDING_URL : string := "https://my.adp.com/static/redbox/".
Definition UID_LOOKUP_URL : string :=
  "https://my.adp.com/redboxapi/identity/v1/self".
Definition PAYSTUB_LIST_URL : string :=
  "https://my.adp.com/v1_0/O/A/payStatements".

Section Fetcher.

(** The remote side: the answer to a call, given the calls made before
    it; [None] is a failure below HTTP (no connection, time-out). *)
Variable server : list Request -> Request -> option Response.
(** [json.loads]; [None] when the text is not JSON. *)
Variable json_loads : string -> option json.
(** [locale.getdefaultlocale()[0]] *)
Variable default_locale : option string.

Definition send (rq : Request) : M Response :=
  fun w =>
    let w' := mkWorld (files w) (stdout w) (calls w ++ [rq]) (jar w)
                (sessions_created w) (sessions_closed w) in
    match server (calls w) rq with
    | Some r => (Ok r, w')
    | None => (Raise ConnectionError, w')
    end.

(** [session.get(url, params=..., stream=...)] *)
Definition session_get (url : string) (params : list (string * string))
    (stream : bool) : M Response :=
  send (mkRequest GET url [] params stream).

(** [session.post(url, data=...)] *)
Definition session_post (url : string) (data : list (string * string))
  : M Response :=
  send (mkRequest POST url data [] false).

Definition loads (s : string) : M json :=
  match json_loads s with
  | Some j => ret j
  | None => raise JSONDecodeError
  end.

Definition log_in (self : PayCheckFetcher) : M unit :=
  let req_data := [("user", username self);
                   ("password", password self);
                   ("target", LANDING_URL)] in
  session_post LOGIN_URL req_data ;;; ret tt.

Definition get_all_the_cookies (self : PayCheckFetcher) : M unit :=
  session_get LANDING_URL [] false ;;; ret tt.

Definition get_uid (self : PayCheckFetcher) : M unit :=
  do response <- session_get UID_LOOKUP_URL [] false ;;
  do info <- loads (text response) ;;
  do oid <- lift (getitem info "associateoid") ;;
  let new_cookies :=
    [("idtoken", oid);
     ("ADPLangLocalCookie", from_option JStr JNull default_locale)] in
  add_dict_to_cookiejar new_cookies.

(** One round of the dict comprehension. The mapping of the model has
    strings for keys and values; a statement whose [payDate] or [href]
    is not a JSON string is outside it and stops the run of the model
    here, where Python goes on and fails, if at all, when it uses the
    value as a string. *)
Definition add_statement (acc : list (string * string)) (statement : json)
  : result (list (string * string)) :=
  match getitem statement "payDate" with
  | Raise e => Raise e
  | Ok k =>
      match getitem statement "statementImageUri" with
      | Raise e => Raise e
      | Ok uri =>
          match getitem uri "href" with
          | Raise e => Raise e
          | Ok v =>
              match k, v with
              | JStr date, JStr href => Ok (dict_set acc date href)
              | _, _ => Raise Unsupported
              end
          end
      end
  end.

Fixpoint add_statements (acc : list (string * string)) (l : list json)
  : result (list (string * string)) :=
  match l with
  | [] => Ok acc
  | statement :: l' =>
      match add_statement acc statement with
      | Ok acc' => add_statements acc' l'
      | Raise e => Raise e
      end
  end.

Definition get_paystub_urls (self : PayCheckFetcher) (limit : Z)
    (adjustments : string) : M PayCheckFetcher :=
  let payload := [("adjustments", adjustments);
                  ("numberoflastpaydates", Py.str_of_int limit)] in
  do response <- session_get PAYSTUB_LIST_URL payload false ;;
  do info <- loads (text response) ;;
  do statements <- lift (getitem info "payStatements") ;;
  do l <- lift (iterate statements) ;;
  do d <- lift (add_statements [] l) ;;
  ret (mkFetcher (username self) (password self) d).

(** [self.get_needed_paystubs()], reading the file system of the world. *)
Definition needed_paystubs (self : PayCheckFetcher)
  : M (list (string * string)) :=
  fun w => (Ok (get_needed_paystubs (files w) (paystub_url_by_date self)), w).

Definition download_paystub (date url : string) : M unit :=
  let url := _transform_download_url url in
  do response <- session_get url [] true ;;
  if negb (status_code response =? 200) then
    print ("Got back " +:+ Py.str_of_int (status_code response)
           +:+ " when trying to fetch " +:+ date +:+ " at " +:+ url)
  else
    let out_f_name := _expected_file_name date in
    open_wb out_f_name ;;;
    copyfileobj (raw response) out_f_name ;;;
    print ("Downloaded " +:+ out_f_name).

Definition download_needed (self : PayCheckFetcher) (limit : Z) : M unit :=
  log_in self ;;;
  get_all_the_cookies self ;;;
  get_uid self ;;;
  do self' <- get_paystub_urls self limit "yes" ;;
  do needed <- needed_paystubs self' ;;
  for_each needed (fun item => download_paystub item.1 item.2).

(** [with requests.Session() as session: body]: the session is closed
    when the block is left, also by an exception. *)
Definition with_session {A} (body : M A) : M A :=
  fun w =>
    let w1 := mkWorld (files w) (stdout w) (calls w) (jar w)
                (S (sessions_created w)) (sessions_closed w) in
    let '(r, w2) := body w1 in
    (r, mkWorld (files w2) (stdout w2) (calls w2) (jar w2)
          (sessions_created w2) (S (sessions_closed w2))).

(** [open(path).read()] *)
Definition read_file (path : string) : M string :=
  fun w => match read_text (files w) path with
           | Some s => (Ok s, w)
           | None => (Raise FileNotFoundError, w)
           end.

(** [cli(creds, limit)]; the result is what the function returns:
    [Some (-1)] for [return -1], [None] when it falls off the end. *)
Definition cli (creds : string) (limit : Z) : M (option Z) :=
  do found <- path_exists creds ;;
  if negb found then
    print "Couldn't find creds!" ;;;
    ret (Some (-1))
  else
    do content <- read_file creds ;;
    match take 2 (Py.split content "010"%char) with
    | [username; password] =>
        with_session
          (let fetcher := mkFetcher username password [] in
           download_needed fetcher limit) ;;;
        ret None
    | _ => raise ValueError
    end.

(** The command as [click] runs it: an option that is not given takes
    its declared default. *)
Definition default_creds : string := "./.adp-pass".
Definition default_limit : Z := 30.

Definition cli_command (creds : option string) (limit : option Z)
  : M (option Z) :=
  cli (default default_creds creds) (default default_limit limit).

End Fetcher.

Definition empty_world (fs : filesystem) : World := mkWorld fs [] [] [] 0 0.

(** ** The words of the specification *)

(** [piece] is the portion of [s] before the first [sep]: all of [s] when
    [sep] does not occur in it. *)
Definition before_first (sep : ascii) (s piece : string) : Prop :=
  Py.has_char piece sep = false
  /\ (s = piece \/ exists rest, s = piece +:+ String sep rest).

(** A year part that names a subdirectory of the working directory: it
    is not empty and neither begins nor ends with the path separator. *)
Definition year_names_subdirectory (year : string) : bool :=
  negb (bool_decide (year = ""))
  && negb (Py.startswith year "/")
  && negb (Py.ends_with_char year "/"%char).

(** The two paths of the specification for a date: [<date>.pdf] and
    [<year>/<date>.pdf]. *)
Definition local_path (date : string) : string := date +:+ ".pdf".
Definition year_path (year date : string) : string :=
  year +:+ "/" +:+ date +:+ ".pdf".

(** A date is ordered before another when its string is at most the
    other's, character by character. *)
Definition date_le (a b : string * string) : Prop := String.leb a.1 b.1 = true.

(** A decimal digit and its value. *)
Definition digit (c : ascii) : option N :=
  let n := N_of_ascii c in
  if ((48 <=? n) && (n <=? 57))%N then Some (n - 48)%N else None.

(** A date in the format [YYYY-MM-DD], read as year, month and day. *)
Definition parse_date (s : string) : option (N * N * N) :=
  match String.list_ascii_of_string s with
  | [y1; y2; y3; y4; s1; m1; m2; s2; d1; d2] =>
      if bool_decide (s1 = "-"%char) && bool_decide (s2 = "-"%char) then
        a ← digit y1; b ← digit y2; c ← digit y3; d ← digit y4;
        e ← digit m1; f ← digit m2; g ← digit d1; h ← digit d2;
        Some (1000 * a + 100 * b + 10 * c + d, 10 * e + f, 10 * g + h)%N
      else None
  | _ => None
  end.

(** The order of the calendar: by year, then month, then day. *)
Definition chron_le (a b : N * N * N) : Prop :=
  let '(y1, m1, d1) := a in
  let '(y2, m2, d2) := b in
  (y1 < y2 \/ (y1 = y2 /\ (m1 < m2 \/ (m1 = m2 /\ d1 <= d2))))%N.

(** Two pairs whose dates are both in the format [YYYY-MM-DD] are in
    the order of the calendar. *)
Definition chronological (a b : string * string) : Prop :=
  forall ta tb,
    parse_date a.1 = Some ta -> parse_date b.1 = Some tb -> chron_le ta tb.

(** The test of [get_needed_paystubs] on one date. *)
Definition have_locally (fs : filesystem) (date : string) : bool :=
  os_path_exists fs (_expected_file_name date)
  || os_path_exists fs
       (Py.os_path_join (year_of date) (_expected_file_name date)).

(** The first two lines of a text: what comes before the first line
    feed, and what comes after it up to the next one, or to the end. *)
Definition first_two_lines (content line1 line2 : string) : Prop :=
  Py.has_char line1 "010"%char = false
  /\ exists rest,
       content = line1 +:+ String "010"%char rest
       /\ before_first "010"%char rest line2.

(** The call by which [log_in] submits the credentials. *)
Definition login_request (user pass : string) : Request :=
  mkRequest POST LOGIN_URL
    [("user", user); ("password", pass); ("target", LANDING_URL)] [] false.

(** The call by which [download_paystub] fetches a document. *)
Definition download_request (url : string) : Request :=
  mkRequest GET (_transform_download_url url) [] [] true.

(** A computation that never takes back a call: the calls made when it
    ends are those made before, followed by its own. *)
Definition extends_calls {A} (c : M A) : Prop :=
  forall w, exists more, calls (c w).2 = calls w ++ more.

(** ** A run to test the model on

    The portal lists three statements; the first is already in the
    working directory, the second downloads, the third is refused. *)

Module Scenario.

Definition line_feed : string := String "010"%char EmptyString.

Definition credentials : string := "alice" +:+ line_feed +:+ "s3cret" +:+ line_feed.

Definition disk : filesystem :=
  {[ "./.adp-pass" := String.list_byte_of_string credentials;
     "2023-01-15.pdf" := String.list_byte_of_string "old" ]}.

Definition pdf : bytes := String.list_byte_of_string "%PDF-1.4 february".

Definition server (before : list Request) (rq : Request) : option Response :=
  if bool_decide (req_url rq = UID_LOOKUP_URL) then
    Some (mkResponse 200 "identity" [])
  else if bool_decide (req_url rq = PAYSTUB_LIST_URL) then
    Some (mkResponse 200 "statements" [])
  else if bool_decide (req_url rq = "https://my.adp.com/doc2") then
    Some (mkResponse 200 "" pdf)
  else if bool_decide (req_url rq = "https://my.adp.com/doc3") then
    Some (mkResponse 404 "" [])
  else Some (mkResponse 200 "" []).

Definition statement (date href : string) : json :=
  JObj [("payDate", JStr date);
        ("statementImageUri", JObj [("href", JStr href)])].

Definition json_loads (s : string) : option json :=
  if bool_decide (s = "identity") then
    Some (JObj [("associateoid", JStr "G3XYZ")])
  else if bool_decide (s = "statements") then
    Some (JObj [("payStatements",
                 JArr [statement "2023-03-15" "/l2/doc3";
                       statement "2023-01-15" "/l2/doc1";
                       statement "2023-02-15" "https://my.adp.com/doc2"])])
  else None.

Definition locale : option string := Some "en_US".

Definition start : World := empty_world disk.

Definition run : result (option Z) * World :=
  cli_command server json_loads locale None None start.

End Scenario.

(** ** Further vocabulary *)

(** A date is strictly before another. *)
Definition date_lt (a b : string * string) : Prop := String.ltb a.1 b.1 = true.

(** The order [sorted] puts the items in: [a] is not after [b]. *)
Definition item_le (a b : string * string) : Prop := Py.item_ltb b a = false.

(** [d.get(k)] on a dict kept in insertion order. *)
Definition dict_get (d : list (string * string)) (k : string) : option string :=
  snd <$> List.find (fun kv => bool_decide (kv.1 = k)) d.

(** The [href] of the last of the pairs that has the date [date]. *)
Definition last_href (l : list (string * string)) (date : string)
  : option string :=
  snd <$> List.find (fun kv => bool_decide (kv.1 = date)) (rev l).

(** The world after one more call. *)
Definition with_call (w : World) (rq : Request) : World :=
  mkWorld (files w) (stdout w) (calls w ++ [rq]) (jar w)
    (sessions_created w) (sessions_closed w).

(** The calls of [get_all_the_cookies], [get_uid] and
    [get_paystub_urls]. *)
Definition landing_request : Request := mkRequest GET LANDING_URL [] [] false.
Definition identity_request : Request :=
  mkRequest GET UID_LOOKUP_URL [] [] false.
Definition listing_request (limit : Z) (adjustments : string) : Request :=
  mkRequest GET PAYSTUB_LIST_URL []
    [("adjustments", adjustments);
     ("numberoflastpaydates", Py.str_of_int limit)] false.

(** The loop at the end of [download_needed]. *)
Definition download_all (server : list Request -> Request -> option Response)
    (needed : list (string * string)) : M unit :=
  for_each needed (fun item => download_paystub server item.1 item.2).

(** What a run inside a session can do to the world: it adds calls,
    output and cookies at the end, keeps every file that is there,
    leaves alone every path that is not some [<date>.pdf], and neither
    opens nor closes a session. *)
Definition evolves (w w' : World) : Prop :=
  (exists more, calls w' = calls w ++ more)
  /\ (exists more, stdout w' = stdout w ++ more)
  /\ (exists more, jar w' = jar w ++ more)
  /\ (forall path, is_Some (files w !! path) -> is_Some (files w' !! path))
  /\ (forall path,
        (forall date, path <> _expected_file_name date) ->
        files w' !! path = files w !! path)
  /\ sessions_created w' = sessions_created w
  /\ sessions_closed w' = sessions_closed w.

(** A computation all of whose runs are of that kind. *)
Definition well_behaved {A} (c : M A) : Prop := forall w, evolves w (c w).2.

(** The documents of a list are asked for at addresses that [requests]
    can send to: after [_transform_download_url] they begin with
    ["http://"] or ["https://"]. *)
Definition http_url (url : string) : bool :=
  Py.startswith url "http://" || Py.startswith url "https://".

Definition http_urls (l : list (string * string)) : Prop :=
  Forall (fun item => http_url (_transform_download_url item.2) = true) l.

(** The dates of a list are in the format [YYYY-MM-DD]. *)
Definition iso_dates (l : list (string * string)) : Prop :=
  Forall (fun item => is_Some (parse_date item.1)) l.

(** Every call that the download loop makes for the list [needed] gets
    an answer, and the answers are [good]; [before] are the calls made
    when the loop reaches the list, and each download adds one. *)
Fixpoint loop_answered (server : list Request -> Request -> option Response)
    (good : Response -> Prop) (before : list Request)
    (needed : list (string * string)) : Prop :=
  match needed with
  | [] => True
  | item :: rest =>
      (exists response,
         server before (download_request item.2) = Some response
         /\ good response)
      /\ loop_answered server good (before ++ [download_request item.2]) rest
  end.

(** [mapping] is what [get_paystub_urls] builds from the answer that the
    listing call gets when the calls [before] have been made: the dict
    of the statements under ["payStatements"] in the parsed answer. *)
Definition listing_mapping (server : list Request -> Request -> option Response)
    (json_loads : string -> option json) (before : list Request)
    (limit : Z) (adjustments : string) (mapping : list (string * string))
  : Prop :=
  exists response info statements l,
    server before (listing_request limit adjustments) = Some response
    /\ json_loads (text response) = Some info
    /\ getitem info "payStatements" = Ok statements
    /\ iterate statements = Ok l
    /\ add_statements [] l = Ok mapping.

(** The statement [st] carries the pay date [date] and the document
    address [href], both strings: [st['payDate']] is the one and
    [st['statementImageUri']['href']] the other. It may hold anything
    else besides. *)
Definition carries (st : json) (date href : string) : Prop :=
  getitem st "payDate" = Ok (JStr date)
  /\ exists uri,
       getitem st "statementImageUri" = Ok uri
       /\ getitem uri "href" = Ok (JStr href).

(** * Properties *)

(** ** The builtins on examples *)

Example split_date : Py.split "2023-01-15" "-" = ["2023"; "01"; "15"].
Proof. reflexivity. Qed.

Example split_edges :
  Py.split "" "-" = [""] /\ Py.split "-a" "-" = [""; "a"]
  /\ Py.split "a-" "-" = ["a"; ""] /\ Py.split "a--b" "-" = ["a"; ""; "b"].
Proof. by repeat split. Qed.

Example replace_all_occurrences :
  Py.replace "/l2/a/l2/b" "/l2" "X" = "X/aX/b"
  /\ Py.replace "aaa" "aa" "b" = "ba" /\ Py.replace "abc" "x" "y" = "abc".
Proof. by repeat split. Qed.

Example join_cases :
  Py.os_path_join "2023" "2023-01-15.pdf" = "2023/2023-01-15.pdf"
  /\ Py.os_path_join "" "-01-15.pdf" = "-01-15.pdf"
  /\ Py.os_path_join "a/" "b.pdf" = "a/b.pdf"
  /\ Py.os_path_join "/x" "/x-y.pdf" = "/x-y.pdf".
Proof. by repeat split. Qed.

Example str_of_int_cases :
  Py.str_of_int 404 = "404" /\ Py.str_of_int 0 = "0"
  /\ Py.str_of_int (-7) = "-7".
Proof. by repeat split. Qed.

Example sorted_items :
  Py.sorted [("2023-02-15", "b"); ("2022-12-31", "c"); ("2023-02-15", "a")]
  = [("2022-12-31", "c"); ("2023-02-15", "a"); ("2023-02-15", "b")].
Proof. reflexivity. Qed.

Example universal_newlines_cases :
  universal_newlines (String "a" (String "013" (String "010" (String "b" (String "013" "c")))))
  = String "a" (String "010" (String "b" (String "010" "c"))).
Proof. reflexivity. Qed.

Example parse_date_cases :
  parse_date "2023-01-15" = Some (2023, 1, 15)%N
  /\ parse_date "2023-1-15" = None /\ parse_date "-01-15" = None.
Proof. by repeat split. Qed.

(** ** Strings *)

Lemma str_app_nil_l (s : string) : "" +:+ s = s.
Proof. reflexivity. Qed.

Lemma str_app_cons (c : ascii) (s t : string) :
  String c s +:+ t = String c (s +:+ t).
Proof. reflexivity. Qed.

Lemma str_app_nil_r (s : string) : s +:+ "" = s.
Proof. induction s as [|c s IH]; [reflexivity|]. by rewrite str_app_cons, IH. Qed.

Lemma str_app_assoc (s t u : string) : (s +:+ t) +:+ u = s +:+ t +:+ u.
Proof. induction s as [|c s IH]; [reflexivity|]. by rewrite !str_app_cons, IH. Qed.

Lemma prefix_nil (s : string) : String.prefix "" s = true.
Proof. by destruct s. Qed.

Lemma prefix_cons (a b : ascii) (p s : string) :
  String.prefix (String a p) (String b s)
  = bool_decide (a = b) && String.prefix p s.
Proof.
  simpl. destruct (ascii_dec a b) as [->|Hne].
  - by rewrite bool_decide_eq_true_2.
  - by rewrite bool_decide_eq_false_2.
Qed.

Lemma prefix_app (p rest : string) : String.prefix p (p +:+ rest) = true.
Proof.
  induction p as [|a p IH]; [apply prefix_nil|].
  rewrite str_app_cons, prefix_cons, IH. by rewrite bool_decide_eq_true_2.
Qed.

Lemma prefix_inv (p s : string) :
  String.prefix p s = true -> exists rest, s = p +:+ rest.
Proof.
  revert s. induction p as [|a p IH]; intros s H.
  - by exists s.
  - destruct s as [|b s]; [done|].
    rewrite prefix_cons in H. apply andb_true_iff in H as [Hab Hp].
    apply bool_decide_eq_true_1 in Hab as ->.
    destruct (IH _ Hp) as [rest ->]. by exists rest.
Qed.

(** ** [str.replace] *)

Lemma replace_from_skip (old new p rest : string) :
  Py.replace_from (String.length p) old new (p +:+ rest)
  = Py.replace_from O old new rest.
Proof.
  induction p as [|a p IH]; [reflexivity|]. exact IH.
Qed.

Lemma replace_occurrence (old new rest : string) :
  old <> "" ->
  Py.replace_from O old new (old +:+ rest)
  = new +:+ Py.replace_from O old new rest.
Proof.
  destruct old as [|a p]; [done|]. intros _.
  rewrite str_app_cons. cbn [Py.replace_from].
  rewrite <- (str_app_cons a p rest), prefix_app.
  cbn [String.length Nat.pred]. by rewrite replace_from_skip.
Qed.

Lemma replace_absent (old new s : string) :
  old <> "" -> Py.contains s old = false ->
  Py.replace_from O old new s = s.
Proof.
  intros Hold. induction s as [|c s IH]; [done|].
  cbn [Py.contains Py.replace_from]. intros H.
  apply orb_false_iff in H as [Hp Hs].
  unfold Py.startswith in Hp. rewrite Hp. by rewrite IH.
Qed.

(** ** [_transform_download_url] *)

Lemma transform_other (url : string) :
  Py.startswith url "/l2" = false -> _transform_download_url url = url.
Proof. unfold _transform_download_url. by intros ->. Qed.

(** What the rewrite does in full: the leading ["/l2"] becomes the host,
    and so does every later occurrence. *)
Lemma transform_relative (rest : string) :
  _transform_download_url ("/l2" +:+ rest)
  = "https://my.adp.com" +:+ Py.replace rest "/l2" "https://my.adp.com".
Proof.
  unfold _transform_download_url, Py.startswith.
  rewrite prefix_app. cbn [negb]. unfold Py.replace.
  by rewrite replace_occurrence.
Qed.

Lemma transform_absolute (url : string) :
  Py.startswith url "/l2" = true ->
  Py.startswith (_transform_download_url url) "/l2" = false.
Proof.
  unfold Py.startswith. intros H. apply prefix_inv in H as [rest ->].
  by rewrite transform_relative.
Qed.

(** C2, as the specification has it, fails on its own example: the
    prefix is replaced by the host, it is not kept behind it. *)
Lemma transform_drops_prefix_counterexample :
  _transform_download_url "/l2/doc1" = "https://my.adp.com/doc1"
  /\ _transform_download_url "/l2/doc1" <> "https://my.adp.com/l2/doc1".
Proof. split; [reflexivity | discriminate]. Qed.

(** C2 (amended). A URL that begins with ["/l2"], and has no other
    occurrence of it, is rewritten to the host followed by what comes
    after that prefix, so ["/l2/doc1"] becomes
    ["https://my.adp.com/doc1"]; a URL that does not begin with ["/l2"]
    is returned unchanged. *)
Theorem transform_download_url_spec (url : string) :
  (Py.startswith url "/l2" = false -> _transform_download_url url = url)
  /\ (forall rest,
        url = "/l2" +:+ rest -> Py.contains rest "/l2" = false ->
        _transform_download_url url = "https://my.adp.com" +:+ rest).
Proof.
  split; [apply transform_other|].
  intros rest -> Hrest. rewrite transform_relative.
  unfold Py.replace. by rewrite replace_absent.
Qed.

Lemma transform_download_url_spec_witness :
  _transform_download_url "https://my.adp.com/doc2" = "https://my.adp.com/doc2"
  /\ _transform_download_url "/l2/doc1" = "https://my.adp.com" +:+ "/doc1".
Proof.
  split.
  - apply (proj1 (transform_download_url_spec "https://my.adp.com/doc2")).
    reflexivity.
  - apply (proj2 (transform_download_url_spec "/l2/doc1") "/doc1");
      reflexivity.
Defined.

(** C6. On a URL that does not begin with ["/l2"] the function returns
    the URL itself, so applying it again changes nothing; and it is a
    function of its argument: equal inputs give equal outputs. *)
Theorem transform_download_url_passthrough_deterministic :
  (forall url,
     Py.startswith url "/l2" = false ->
     _transform_download_url url = url
     /\ _transform_download_url (_transform_download_url url)
        = _transform_download_url url)
  /\ (forall url1 url2,
        url1 = url2 ->
        _transform_download_url url1 = _transform_download_url url2).
Proof.
  split.
  - intros url H. by rewrite !(transform_other url H).
  - by intros url1 url2 ->.
Qed.

Lemma transform_download_url_passthrough_deterministic_witness :
  _transform_download_url "https://my.adp.com/doc2" = "https://my.adp.com/doc2"
  /\ _transform_download_url "/l2/doc1" = _transform_download_url "/l2/doc1".
Proof.
  split.
  - apply (proj1 transform_download_url_passthrough_deterministic
             "https://my.adp.com/doc2"). reflexivity.
  - apply (proj2 transform_download_url_passthrough_deterministic).
    reflexivity.
Defined.

(** C9. The function is idempotent on every URL: a rewritten URL begins
    with the host, not with ["/l2"], and is left alone the second time. *)
Theorem transform_download_url_idempotent (url : string) :
  _transform_download_url (_transform_download_url url)
  = _transform_download_url url.
Proof.
  destruct (Py.startswith url "/l2") eqn:H.
  - apply transform_other, transform_absolute, H.
  - by rewrite !(transform_other url H).
Qed.

(** ** [str.split] *)

Lemma split_first (sep : ascii) (piece rest : string) :
  Py.has_char piece sep = false ->
  Py.split (piece +:+ String sep rest) sep = piece :: Py.split rest sep.
Proof.
  induction piece as [|c piece IH]; intros H.
  - rewrite str_app_nil_l. cbn [Py.split]. by rewrite bool_decide_eq_true_2.
  - cbn [Py.has_char] in H. apply orb_false_iff in H as [Hc Hp].
    rewrite str_app_cons. cbn [Py.split]. rewrite Hc. by rewrite (IH Hp).
Qed.

Lemma split_whole (sep : ascii) (s : string) :
  Py.has_char s sep = false -> Py.split s sep = [s].
Proof.
  induction s as [|c s IH]; intros H; [done|].
  cbn [Py.has_char] in H. apply orb_false_iff in H as [Hc Hs].
  cbn [Py.split]. rewrite Hc. by rewrite (IH Hs).
Qed.

Lemma split_before_first (sep : ascii) (s piece : string) :
  before_first sep s piece -> hd EmptyString (Py.split s sep) = piece.
Proof.
  intros [Hp [-> | [rest ->]]].
  - by rewrite split_whole.
  - by rewrite split_first.
Qed.

(** [date.split('-')[0]] is the portion of the date before the first
    ['-'], and there is only one such portion. *)
Lemma year_of_before_first (date : string) :
  before_first "-" date (year_of date).
Proof.
  unfold year_of, before_first.
  induction date as [|c date [IH1 IH2]]; [by split; [|left]|].
  cbn [Py.split]. destruct (bool_decide (c = "-"%char)) eqn:Hc.
  - apply bool_decide_eq_true_1 in Hc as ->. split; [done|]. right. by eexists.
  - destruct (Py.split date "-") as [|piece pieces] eqn:E.
    + split; [cbn; by rewrite Hc|]. cbn in IH2.
      destruct IH2 as [-> | [rest ->]]; [by left|]. right. by exists rest.
    + cbn [hd] in *. split; [cbn; by rewrite Hc|].
      destruct IH2 as [-> | [rest ->]]; [by left|]. right. by exists rest.
Qed.

Lemma year_of_unique (date year : string) :
  before_first "-" date year -> year_of date = year.
Proof. apply split_before_first. Qed.

(** ** [os.path.join] *)

Lemma join_year (year date : string) :
  year_names_subdirectory year = true ->
  (exists rest, date = year +:+ rest) ->
  Py.os_path_join year (_expected_file_name date) = year_path year date.
Proof.
  unfold year_names_subdirectory. intros H [rest ->].
  apply andb_true_iff in H as [H Hend]. apply andb_true_iff in H as [Hne Hst].
  apply negb_true_iff in Hne, Hst, Hend.
  unfold Py.os_path_join, _expected_file_name, year_path.
  rewrite Hne, Hend. cbn [orb].
  destruct year as [|c year]; [done|].
  unfold Py.startswith in *. rewrite !str_app_cons, prefix_cons in *.
  rewrite prefix_nil, andb_true_r in *. by rewrite Hst.
Qed.

Lemma before_first_prefix (sep : ascii) (s piece : string) :
  before_first sep s piece -> exists rest, s = piece +:+ rest.
Proof.
  intros [_ [-> | [rest ->]]]; [exists ""; by rewrite str_app_nil_r | by eexists].
Qed.

(** ** Dates *)

Lemma digit_compare (c1 c2 : ascii) (x y : N) :
  digit c1 = Some x -> digit c2 = Some y ->
  Ascii.compare c1 c2 = (x ?= y)%N /\ (x <= 9)%N /\ (y <= 9)%N.
Proof.
  unfold digit, Ascii.compare. intros H1 H2.
  destruct ((48 <=? N_of_ascii c1) && (N_of_ascii c1 <=? 57))%N eqn:E1; [|done].
  destruct ((48 <=? N_of_ascii c2) && (N_of_ascii c2 <=? 57))%N eqn:E2; [|done].
  simplify_eq. apply andb_true_iff in E1 as [?%N.leb_le ?%N.leb_le].
  apply andb_true_iff in E2 as [?%N.leb_le ?%N.leb_le].
  split; [|lia].
  destruct (N.compare_spec (N_of_ascii c1) (N_of_ascii c2)); symmetry;
    [apply N.compare_eq_iff | apply N.compare_lt_iff | apply N.compare_gt_iff];
    lia.
Qed.

Lemma digit_not_sep (c : ascii) (x : N) :
  digit c = Some x -> c <> "-"%char /\ c <> "/"%char.
Proof. intros H. split; intros ->; by vm_compute in H. Qed.

Lemma parse_date_shape (s : string) (t : N * N * N) :
  parse_date s = Some t ->
  exists c0 c1 c2 c3 c5 c6 c8 c9 x0 x1 x2 x3 x5 x6 x8 x9,
    s = String c0 (String c1 (String c2 (String c3 (String "-"
          (String c5 (String c6 (String "-"
            (String c8 (String c9 EmptyString)))))))))
    /\ t = (1000 * x0 + 100 * x1 + 10 * x2 + x3, 10 * x5 + x6, 10 * x8 + x9)%N
    /\ digit c0 = Some x0 /\ digit c1 = Some x1 /\ digit c2 = Some x2
    /\ digit c3 = Some x3 /\ digit c5 = Some x5 /\ digit c6 = Some x6
    /\ digit c8 = Some x8 /\ digit c9 = Some x9.
Proof.
  unfold parse_date. intros H.
  destruct s as [|c0 [|c1 [|c2 [|c3 [|c4 [|c5 [|c6 [|c7 [|c8 [|c9 [|? ?]]]]]]]]]]];
    try done.
  cbn [String.list_ascii_of_string] in H.
  destruct (bool_decide (c4 = _) && bool_decide (c7 = _)) eqn:E; [|done].
  apply andb_true_iff in E as [->%bool_decide_eq_true_1 ->%bool_decide_eq_true_1].
  destruct (digit c0) as [x0|] eqn:D0; [|done].
  destruct (digit c1) as [x1|] eqn:D1; [|done].
  destruct (digit c2) as [x2|] eqn:D2; [|done].
  destruct (digit c3) as [x3|] eqn:D3; [|done].
  destruct (digit c5) as [x5|] eqn:D5; [|done].
  destruct (digit c6) as [x6|] eqn:D6; [|done].
  destruct (digit c8) as [x8|] eqn:D8; [|done].
  destruct (digit c9) as [x9|] eqn:D9; [|done].
  cbn in H. injection H as <-.
  exists c0, c1, c2, c3, c5, c6, c8, c9, x0, x1, x2, x3, x5, x6, x8, x9.
  done.
Qed.

(** On dates in the format [YYYY-MM-DD] the order of the strings is the
    order of the calendar. *)
Lemma date_order_chronological (a b : string) (ta tb : N * N * N) :
  parse_date a = Some ta -> parse_date b = Some tb ->
  String.leb a b = true <-> chron_le ta tb.
Proof.
  intros Ha Hb.
  apply parse_date_shape in Ha
    as (a0 & a1 & a2 & a3 & a5 & a6 & a8 & a9
        & x0 & x1 & x2 & x3 & x5 & x6 & x8 & x9
        & -> & -> & A0 & A1 & A2 & A3 & A5 & A6 & A8 & A9).
  apply parse_date_shape in Hb
    as (b0 & b1 & b2 & b3 & b5 & b6 & b8 & b9
        & y0 & y1 & y2 & y3 & y5 & y6 & y8 & y9
        & -> & -> & B0 & B1 & B2 & B3 & B5 & B6 & B8 & B9).
  destruct (digit_compare _ _ _ _ A0 B0) as (C0 & ? & ?).
  destruct (digit_compare _ _ _ _ A1 B1) as (C1 & ? & ?).
  destruct (digit_compare _ _ _ _ A2 B2) as (C2 & ? & ?).
  destruct (digit_compare _ _ _ _ A3 B3) as (C3 & ? & ?).
  destruct (digit_compare _ _ _ _ A5 B5) as (C5 & ? & ?).
  destruct (digit_compare _ _ _ _ A6 B6) as (C6 & ? & ?).
  destruct (digit_compare _ _ _ _ A8 B8) as (C8 & ? & ?).
  destruct (digit_compare _ _ _ _ A9 B9) as (C9 & ? & ?).
  unfold String.leb, chron_le. cbn [String.compare].
  rewrite C0, C1, C2, C3, C5, C6, C8, C9.
  change (Ascii.compare "-" "-") with Eq. cbv iota.
  destruct (N.compare_spec x0 y0); [|split; [lia|done]|split; [done|lia]].
  destruct (N.compare_spec x1 y1); [|split; [lia|done]|split; [done|lia]].
  destruct (N.compare_spec x2 y2); [|split; [lia|done]|split; [done|lia]].
  destruct (N.compare_spec x3 y3); [|split; [lia|done]|split; [done|lia]].
  destruct (N.compare_spec x5 y5); [|split; [lia|done]|split; [done|lia]].
  destruct (N.compare_spec x6 y6); [|split; [lia|done]|split; [done|lia]].
  destruct (N.compare_spec x8 y8); [|split; [lia|done]|split; [done|lia]].
  destruct (N.compare_spec x9 y9); split; (lia || done).
Qed.

(** The year part of a date in the format [YYYY-MM-DD] is its first four
    characters, and it names a subdirectory. *)
Lemma parse_date_year (date : string) (t : N * N * N) :
  parse_date date = Some t ->
  before_first "-" date (String.substring 0 4 date)
  /\ year_names_subdirectory (String.substring 0 4 date) = true.
Proof.
  intros H. apply parse_date_shape in H
    as (c0 & c1 & c2 & c3 & c5 & c6 & c8 & c9
        & x0 & x1 & x2 & x3 & x5 & x6 & x8 & x9
        & -> & _ & D0 & D1 & D2 & D3 & _).
  apply digit_not_sep in D0 as [? ?], D1 as [? ?], D2 as [? ?], D3 as [? ?].
  cbn [String.substring]. split; [split|].
  - cbn [Py.has_char]. by rewrite !bool_decide_eq_false_2.
  - right. by eexists.
  - unfold year_names_subdirectory, Py.startswith.
    rewrite prefix_cons. cbn [Py.ends_with_char].
    rewrite (bool_decide_eq_false_2 (String c0 _ = "")) by done.
    rewrite (bool_decide_eq_false_2 ("/"%char = c0)) by done.
    by rewrite (bool_decide_eq_false_2 (c3 = "/"%char)).
Qed.

(** ** Names in the working directory *)

Lemma has_char_app (s t : string) (c : ascii) :
  Py.has_char (s +:+ t) c = Py.has_char s c || Py.has_char t c.
Proof.
  induction s as [|a s IH]; [done|].
  rewrite str_app_cons. cbn [Py.has_char]. by rewrite IH, orb_assoc.
Qed.

Lemma directory_part_plain (name : string) :
  Py.has_char name "/" = false -> directory_part name = "".
Proof. destruct name as [|c name]; [done|]. cbn [directory_part]. by intros ->. Qed.

(** The file of a date in the format [YYYY-MM-DD] has a name without
    ['/']: it lies in the working directory. *)
Lemma parse_date_plain (date : string) (t : N * N * N) :
  parse_date date = Some t -> Py.has_char (_expected_file_name date) "/" = false.
Proof.
  intros H. apply parse_date_shape in H
    as (c0 & c1 & c2 & c3 & c5 & c6 & c8 & c9
        & x0 & x1 & x2 & x3 & x5 & x6 & x8 & x9
        & -> & _ & D0 & D1 & D2 & D3 & D5 & D6 & D8 & D9).
  apply digit_not_sep in D0 as [_ ?], D1 as [_ ?], D2 as [_ ?], D3 as [_ ?],
    D5 as [_ ?], D6 as [_ ?], D8 as [_ ?], D9 as [_ ?].
  unfold _expected_file_name. rewrite has_char_app. cbn [Py.has_char].
  rewrite !bool_decide_eq_false_2 by done. done.
Qed.

Lemma open_wb_plain (name : string) (w : World) :
  Py.has_char name "/" = false ->
  open_wb name w
  = (Ok tt, mkWorld (<[name := []]> (files w)) (stdout w) (calls w)
              (jar w) (sessions_created w) (sessions_closed w)).
Proof.
  intros H. unfold open_wb. rewrite (directory_part_plain _ H).
  by rewrite bool_decide_eq_true_2.
Qed.

(** ** [sorted] *)

Lemma insert_item_perm (x : string * string) (l : list (string * string)) :
  Permutation (Py.insert_item x l) (x :: l).
Proof.
  induction l as [|y l IH]; [done|]. cbn [Py.insert_item].
  destruct (Py.item_ltb y x); [|done].
  rewrite IH. apply perm_swap.
Qed.

Lemma sorted_perm (l : list (string * string)) : Permutation (Py.sorted l) l.
Proof.
  induction l as [|x l IH]; [done|]. cbn [Py.sorted].
  by rewrite insert_item_perm, IH.
Qed.

Lemma leb_refl (s : string) : String.leb s s = true.
Proof. apply Is_true_true. change (String.le s s). done. Qed.

Lemma leb_trans (s t u : string) :
  String.leb s t = true -> String.leb t u = true -> String.leb s u = true.
Proof.
  intros H1%Is_true_true H2%Is_true_true. apply Is_true_true.
  change (String.le s u). by trans t.
Qed.

(** The two ways a comparison of [sorted] can go, read on the dates. *)
Lemma item_ltb_true (a b : string * string) :
  Py.item_ltb a b = true -> date_le a b.
Proof.
  unfold Py.item_ltb, date_le, String.leb.
  by destruct (String.compare a.1 b.1).
Qed.

Lemma item_ltb_false (a b : string * string) :
  Py.item_ltb a b = false -> date_le b a.
Proof.
  unfold Py.item_ltb, date_le, String.leb.
  rewrite (String.compare_antisym b.1 a.1).
  by destruct (String.compare a.1 b.1).
Qed.

Lemma insert_item_sorted (x : string * string) (l : list (string * string)) :
  StronglySorted date_le l -> StronglySorted date_le (Py.insert_item x l).
Proof.
  induction 1 as [|y l Hl IH Hy]; cbn [Py.insert_item].
  - by repeat constructor.
  - destruct (Py.item_ltb y x) eqn:E.
    + constructor; [done|].
      eapply Permutation_Forall; [symmetry; apply insert_item_perm|].
      constructor; [by apply item_ltb_true | done].
    + apply item_ltb_false in E.
      constructor; [by constructor|].
      constructor; [done|].
      eapply Forall_impl; [exact Hy|]. intros z Hz. unfold date_le in *.
      by eapply leb_trans.
Qed.

Lemma sorted_sorted (l : list (string * string)) :
  StronglySorted date_le (Py.sorted l).
Proof.
  induction l as [|x l IH]; [constructor|]. by apply insert_item_sorted.
Qed.

(** ** [get_needed_paystubs] *)

Lemma needed_step_filter (fs : filesystem) (need : list (string * string))
    (item : string * string) :
  needed_step fs need item
  = need ++ List.filter (fun p => negb (have_locally fs p.1)) [item].
Proof.
  destruct item as [date url]. unfold needed_step, have_locally. cbn.
  destruct (os_path_exists fs (_expected_file_name date)); cbn;
    [by rewrite app_nil_r|].
  destruct (os_path_exists fs _); cbn; [by rewrite app_nil_r | done].
Qed.

Lemma needed_loop_filter (fs : filesystem) (m need : list (string * string)) :
  fold_left (needed_step fs) m need
  = need ++ List.filter (fun p => negb (have_locally fs p.1)) m.
Proof.
  revert need. induction m as [|item m IH]; intros need.
  - cbn. by rewrite app_nil_r.
  - cbn [fold_left]. rewrite IH, needed_step_filter.
    rewrite <- app_assoc. f_equal.
    change (item :: m) with ([item] ++ m). by rewrite List.filter_app.
Qed.

(** The needed list holds the pairs of the mapping whose date fails both
    tests of the loop, each as often as the mapping has it. *)
Lemma needed_perm (fs : filesystem) (m : list (string * string)) :
  Permutation (get_needed_paystubs fs m)
    (List.filter (fun p => negb (have_locally fs p.1)) m).
Proof.
  unfold get_needed_paystubs. by rewrite sorted_perm, needed_loop_filter.
Qed.

Lemma needed_In (fs : filesystem) (m : list (string * string))
    (date url : string) :
  In (date, url) (get_needed_paystubs fs m)
  <-> In (date, url) m /\ have_locally fs date = false.
Proof.
  rewrite (Permutation_in' (eq_refl (date, url)) (needed_perm fs m)).
  rewrite List.filter_In. cbn. by rewrite negb_true_iff.
Qed.

(** The two tests of the loop, for a date whose year part names a
    subdirectory: the path joined from the year and the file name is
    then [<year>/<date>.pdf]. *)
Lemma needed_year_path_In (fs : filesystem) (mapping : list (string * string))
    (date url year : string) :
  before_first "-" date year ->
  year_names_subdirectory year = true ->
  In (date, url) (get_needed_paystubs fs mapping)
  <-> In (date, url) mapping
      /\ os_path_exists fs (local_path date) = false
      /\ os_path_exists fs (year_path year date) = false.
Proof.
  intros Hyear Hok. rewrite needed_In. unfold have_locally.
  rewrite (year_of_unique _ _ Hyear).
  rewrite (join_year _ _ Hok (before_first_prefix _ _ _ Hyear)).
  unfold local_path, _expected_file_name. by rewrite orb_false_iff.
Qed.

(** C1. Take a paystub mapping and a date in the format [YYYY-MM-DD],
    with [year] the portion of the date before its first ['-']. A pair
    of that date is in the needed list exactly when it is in the
    mapping and neither [<date>.pdf] nor [<year>/<date>.pdf] exists: a
    date that is present at one of the two paths is excluded, whatever
    its URL, and every other pair of the mapping is included. *)
Theorem needed_paystubs_spec (fs : filesystem) (mapping : list (string * string))
    (date url year : string) (t : N * N * N) :
  parse_date date = Some t ->
  before_first "-" date year ->
  In (date, url) (get_needed_paystubs fs mapping)
  <-> In (date, url) mapping
      /\ os_path_exists fs (local_path date) = false
      /\ os_path_exists fs (year_path year date) = false.
Proof.
  intros Hdate Hyear. apply needed_year_path_In; [exact Hyear|].
  destruct (parse_date_year _ _ Hdate) as [Hyear' Hok].
  by rewrite <- (year_of_unique _ _ Hyear), (year_of_unique _ _ Hyear').
Qed.

(** The first scenario of the specification: one date is present and is
    left out, the other is needed. *)
Lemma needed_paystubs_spec_witness :
  let fs : filesystem := {[ "2023-01-15.pdf" := [] ]} in
  let mapping := [("2023-01-15", "/l2/doc1");
                  ("2023-02-15", "https://my.adp.com/doc2")] in
  In ("2023-02-15", "https://my.adp.com/doc2") (get_needed_paystubs fs mapping)
  /\ ~ In ("2023-01-15", "/l2/doc1") (get_needed_paystubs fs mapping).
Proof.
  cbn zeta. split.
  - apply (needed_paystubs_spec _ _ "2023-02-15" _ "2023" (2023, 2, 15)%N).
    + reflexivity.
    + split; [reflexivity|]. right. by exists "02-15".
    + split; [right; by left|]. split; by vm_compute.
  - intros H.
    apply (needed_paystubs_spec _ _ "2023-01-15" _ "2023" (2023, 1, 15)%N)
      in H.
    + destruct H as (_ & H & _). by vm_compute in H.
    + reflexivity.
    + split; [reflexivity|]. right. by exists "01-15".
Defined.

Lemma date_le_chronological (a b : string * string) :
  date_le a b -> chronological a b.
Proof.
  intros H ta tb Ha Hb. by apply (date_order_chronological _ _ _ _ Ha Hb).
Qed.

Lemma StronglySorted_impl {A} (R R' : A -> A -> Prop) (l : list A) :
  (forall a b, R a b -> R' a b) -> StronglySorted R l -> StronglySorted R' l.
Proof.
  intros HR. induction 1 as [|x l Hl IH Hx]; constructor; [done|].
  eapply Forall_impl; [exact Hx|]. intros y. apply HR.
Qed.

(** C5. Whatever the mapping and the files, the needed list is sorted
    ascending by date string: every pair's date is at most the date of
    every pair after it, in the character-by-character order of
    strings. For dates in the format [YYYY-MM-DD] this is the order of
    the calendar. *)
Theorem needed_paystubs_sorted (fs : filesystem)
    (mapping : list (string * string)) :
  StronglySorted date_le (get_needed_paystubs fs mapping)
  /\ StronglySorted chronological (get_needed_paystubs fs mapping).
Proof.
  split; [apply sorted_sorted|].
  eapply StronglySorted_impl; [apply date_le_chronological | apply sorted_sorted].
Qed.

(** ** Calls only accumulate *)

Create HintDb calls.

Lemma extends_ret {A} (a : A) : extends_calls (ret a).
Proof. intros w. exists []. cbn. by rewrite app_nil_r. Qed.

Lemma extends_raise {A} (e : exn) : extends_calls (@raise A e).
Proof. intros w. exists []. cbn. by rewrite app_nil_r. Qed.

Lemma extends_lift {A} (r : result A) : extends_calls (lift r).
Proof. intros w. exists []. cbn. by rewrite app_nil_r. Qed.

Lemma extends_bind {A B} (c : M A) (k : A -> M B) :
  extends_calls c -> (forall a, extends_calls (k a)) -> extends_calls (bind c k).
Proof.
  intros Hc Hk w. unfold bind. destruct (Hc w) as [m1 H1].
  destruct (c w) as [[a|e] w1]; cbn in *.
  - destruct (Hk a w1) as [m2 H2]. exists (m1 ++ m2).
    by rewrite H2, H1, app_assoc.
  - by exists m1.
Qed.

Lemma extends_print (line : string) : extends_calls (print line).
Proof. intros w. exists []. cbn. by rewrite app_nil_r. Qed.

Lemma extends_open_wb (name : string) : extends_calls (open_wb name).
Proof.
  intros w. exists []. unfold open_wb.
  destruct (_ || _); cbn; by rewrite app_nil_r.
Qed.

Lemma extends_copyfileobj (src : bytes) (name : string) :
  extends_calls (copyfileobj src name).
Proof. intros w. exists []. cbn. by rewrite app_nil_r. Qed.

Lemma extends_add_dict_to_cookiejar (d : list (string * json)) :
  extends_calls (add_dict_to_cookiejar d).
Proof.
  intros w. exists []. unfold add_dict_to_cookiejar.
  destruct (forallb _ d); cbn; by rewrite app_nil_r.
Qed.

Lemma extends_for_each {A} (l : list A) (body : A -> M unit) :
  (forall x, extends_calls (body x)) -> extends_calls (for_each l body).
Proof.
  intros H. induction l as [|x l IH]; cbn [for_each].
  - apply extends_ret.
  - apply extends_bind; [apply H | intros _; apply IH].
Qed.

#[local] Hint Resolve extends_ret extends_raise extends_lift extends_print
  extends_open_wb extends_copyfileobj extends_add_dict_to_cookiejar : calls.

Section Run.
Variable server : list Request -> Request -> option Response.
Variable json_loads : string -> option json.
Variable default_locale : option string.

(** A call is recorded whether or not it is answered. *)
Lemma send_calls (rq : Request) (w : World) :
  calls (send server rq w).2 = calls w ++ [rq].
Proof. unfold send. by destruct (server (calls w) rq). Qed.

Lemma send_answer (rq : Request) (w : World) (response : Response) :
  server (calls w) rq = Some response ->
  send server rq w
  = (Ok response,
     mkWorld (files w) (stdout w) (calls w ++ [rq]) (jar w)
       (sessions_created w) (sessions_closed w)).
Proof. unfold send. by intros ->. Qed.

Lemma extends_send (rq : Request) : extends_calls (send server rq).
Proof. intros w. exists [rq]. apply send_calls. Qed.

Lemma extends_loads (s : string) : extends_calls (loads json_loads s).
Proof. unfold loads. destruct (json_loads s); auto with calls. Qed.

Lemma extends_session_get (url : string) (params : list (string * string))
    (stream : bool) :
  extends_calls (session_get server url params stream).
Proof. apply extends_send. Qed.

Lemma extends_session_post (url : string) (data : list (string * string)) :
  extends_calls (session_post server url data).
Proof. apply extends_send. Qed.

#[local] Hint Resolve extends_send extends_loads extends_session_get
  extends_session_post : calls.

Ltac extends :=
  repeat first
    [ progress auto with calls
    | apply extends_bind; [|intros ?]
    | apply extends_for_each; intros ? ].

Lemma extends_download_paystub (date url : string) :
  extends_calls (download_paystub server date url).
Proof.
  unfold download_paystub. extends.
  destruct (negb _); extends.
Qed.

Lemma extends_get_all_the_cookies (self : PayCheckFetcher) :
  extends_calls (get_all_the_cookies server self).
Proof. unfold get_all_the_cookies. extends. Qed.

Lemma extends_get_uid (self : PayCheckFetcher) :
  extends_calls (get_uid server json_loads default_locale self).
Proof. unfold get_uid. extends. Qed.

Lemma extends_get_paystub_urls (self : PayCheckFetcher) (limit : Z)
    (adjustments : string) :
  extends_calls (get_paystub_urls server json_loads self limit adjustments).
Proof. unfold get_paystub_urls. extends. Qed.

Lemma extends_needed_paystubs (self : PayCheckFetcher) :
  extends_calls (needed_paystubs self).
Proof. intros w. exists []. cbn. by rewrite app_nil_r. Qed.

#[local] Hint Resolve extends_download_paystub extends_get_all_the_cookies
  extends_get_uid extends_get_paystub_urls extends_needed_paystubs : calls.

Lemma extends_download_all (needed : list (string * string)) :
  extends_calls
    (for_each needed (fun item => download_paystub server item.1 item.2)).
Proof. apply extends_for_each. intros ?. apply extends_download_paystub. Qed.

(** Every run of [download_paystub] makes one call, for the document. *)
Lemma download_paystub_calls (date url : string) (w : World) :
  calls (download_paystub server date url w).2
  = calls w ++ [download_request url].
Proof.
  unfold download_paystub, session_get, bind, download_request.
  pose proof (send_calls (mkRequest GET (_transform_download_url url) [] [] true) w) as H.
  destruct (send server _ w) as [[response|e] w1]; cbn in *; [|done].
  destruct (negb _); [done|]. unfold open_wb.
  by destruct (_ || _).
Qed.

(** A loop over a non-empty list starts with the call for its head. *)
Lemma download_all_first_call (date url : string)
    (rest : list (string * string)) (w : World) :
  exists more,
    calls (for_each ((date, url) :: rest)
             (fun item => download_paystub server item.1 item.2) w).2
    = calls w ++ download_request url :: more.
Proof.
  cbn [for_each]. unfold bind.
  pose proof (download_paystub_calls date url w) as H. cbn [fst snd].
  destruct (download_paystub server date url w) as [[[]|e] w1]; cbn in *.
  - destruct (extends_download_all rest w1) as [more Hm].
    exists more. by rewrite Hm, H, <- app_assoc.
  - by exists [].
Qed.

(** ** [download_paystub] *)

(** C3. When the answer to the download has a status other than 200,
    [download_paystub] leaves the files as they are, prints one line
    made of the status code, the date and the URL that was asked for,
    and returns normally; the loop of [download_needed] goes on from
    there, and the next thing it does is the call for the next item. *)
Theorem download_paystub_failure (date url : string) (w : World)
    (response : Response) :
  server (calls w) (download_request url) = Some response ->
  status_code response <> 200 ->
  exists w',
    download_paystub server date url w = (Ok tt, w')
    /\ files w' = files w
    /\ stdout w'
       = stdout w
         ++ ["Got back " +:+ Py.str_of_int (status_code response)
             +:+ " when trying to fetch " +:+ date
             +:+ " at " +:+ _transform_download_url url]
    /\ (forall rest,
          for_each ((date, url) :: rest)
            (fun item => download_paystub server item.1 item.2) w
          = for_each rest
              (fun item => download_paystub server item.1 item.2) w')
    /\ (forall date' url' rest,
          exists more,
            calls (for_each ((date, url) :: (date', url') :: rest)
                     (fun item => download_paystub server item.1 item.2) w).2
            = calls w ++ download_request url :: download_request url' :: more).
Proof.
  intros Hresp Hcode.
  set (line := "Got back " +:+ Py.str_of_int (status_code response)
               +:+ " when trying to fetch " +:+ date
               +:+ " at " +:+ _transform_download_url url).
  set (w' := mkWorld (files w) (stdout w ++ [line])
               (calls w ++ [download_request url]) (jar w)
               (sessions_created w) (sessions_closed w)).
  assert (download_paystub server date url w = (Ok tt, w')) as Hrun.
  { unfold download_paystub, session_get, bind. unfold download_request in Hresp.
    rewrite (send_answer _ _ _ Hresp).
    apply Z.eqb_neq in Hcode. rewrite Hcode. cbn [negb]. reflexivity. }
  assert (forall rest,
    for_each ((date, url) :: rest)
      (fun item => download_paystub server item.1 item.2) w
    = for_each rest (fun item => download_paystub server item.1 item.2) w')
    as Hloop.
  { intros rest. cbn [for_each]. unfold bind at 1. cbn [fst snd].
    rewrite Hrun. reflexivity. }
  exists w'. split; [exact Hrun|]. split; [done|]. split; [done|].
  split; [exact Hloop|].
  intros date' url' rest. rewrite Hloop.
  destruct (download_all_first_call date' url' rest w') as [more Hm].
  exists more. rewrite Hm. cbn [calls w']. by rewrite <- app_assoc.
Qed.

(** The run of a successful download into the working directory. *)
Lemma download_paystub_200 (date url : string) (w : World)
    (response : Response) :
  Py.has_char (_expected_file_name date) "/" = false ->
  server (calls w) (download_request url) = Some response ->
  status_code response = 200 ->
  download_paystub server date url w
  = (Ok tt,
     mkWorld (<[_expected_file_name date := raw response]> (files w))
       (stdout w ++ ["Downloaded " +:+ _expected_file_name date])
       (calls w ++ [download_request url]) (jar w)
       (sessions_created w) (sessions_closed w)).
Proof.
  intros Hplain Hresp Hcode. unfold download_request in Hresp.
  unfold download_paystub, session_get, bind.
  rewrite (send_answer _ _ _ Hresp).
  rewrite Hcode. cbn [Z.eqb Pos.eqb negb].
  rewrite (open_wb_plain _ _ Hplain). cbn.
  by rewrite alter_insert_eq.
Qed.

(** C4. For a date in the format [YYYY-MM-DD]: when the answer has
    status 200, [download_paystub] returns normally and leaves a file
    named [<date>.pdf], a name without directory part and so a file of
    the working directory, whose content is the body of the answer,
    whatever was there under that name before; and it prints a line
    that says so. *)
Theorem download_paystub_success (date url : string) (t : N * N * N)
    (w : World) (response : Response) :
  parse_date date = Some t ->
  server (calls w) (download_request url) = Some response ->
  status_code response = 200 ->
  exists w',
    download_paystub server date url w = (Ok tt, w')
    /\ Py.has_char (local_path date) "/" = false
    /\ files w' !! local_path date = Some (raw response)
    /\ stdout w' = stdout w ++ ["Downloaded " +:+ local_path date].
Proof.
  intros Hdate Hresp Hcode. pose proof (parse_date_plain _ _ Hdate) as Hplain.
  eexists. split; [by apply download_paystub_200|].
  split; [exact Hplain|]. cbn [files stdout]. unfold local_path.
  split; [apply lookup_insert_eq | done].
Qed.

(** ** [download_needed] *)

Lemma log_in_calls (self : PayCheckFetcher) (w : World) :
  calls (log_in server self w).2
  = calls w ++ [login_request (username self) (password self)].
Proof.
  unfold log_in, session_post, bind, login_request.
  pose proof (send_calls
    (mkRequest POST LOGIN_URL
       [("user", username self); ("password", password self);
        ("target", LANDING_URL)] [] false) w) as H.
  by destruct (send server _ w) as [[response|e] w1].
Qed.

Lemma extends_after_login (self : PayCheckFetcher) (limit : Z) :
  extends_calls
    (get_all_the_cookies server self ;;;
     get_uid server json_loads default_locale self ;;;
     do self' <- get_paystub_urls server json_loads self limit "yes" ;;
     do needed <- needed_paystubs self' ;;
     for_each needed (fun item => download_paystub server item.1 item.2)).
Proof. extends. Qed.

(** The run starts with the login, made with the fetcher's credentials. *)
Lemma download_needed_first_call (self : PayCheckFetcher) (limit : Z)
    (w : World) :
  exists more,
    calls (download_needed server json_loads default_locale self limit w).2
    = calls w ++ login_request (username self) (password self) :: more.
Proof.
  unfold download_needed. unfold bind at 1.
  pose proof (log_in_calls self w) as H.
  destruct (log_in server self w) as [[[]|e] w1]; cbn [snd] in *.
  - destruct (extends_after_login self limit w1) as [more Hm].
    exists more. by rewrite Hm, H, <- app_assoc.
  - by exists [].
Qed.

(** ** [cli] *)

(** C7. Without the credentials file the command prints its complaint
    and returns -1; it makes no call, creates no session and touches no
    file. *)
Theorem cli_missing_credentials (creds : string) (limit : Z) (w : World) :
  os_path_exists (files w) creds = false ->
  exists w',
    cli server json_loads default_locale creds limit w = (Ok (Some (-1)), w')
    /\ stdout w' = stdout w ++ ["Couldn't find creds!"]
    /\ calls w' = calls w
    /\ sessions_created w' = sessions_created w
    /\ files w' = files w.
Proof.
  intros H. eexists.
  split; [unfold cli, bind, path_exists; rewrite H; reflexivity | done].
Qed.

Lemma read_text_exists (fs : filesystem) (path content : string) :
  read_text fs path = Some content -> os_path_exists fs path = true.
Proof.
  unfold read_text, os_path_exists. intros H.
  apply bool_decide_eq_true_2. destruct (fs !! path); [by eexists | done].
Qed.

Lemma first_two_lines_split (content line1 line2 : string) :
  first_two_lines content line1 line2 ->
  take 2 (Py.split content "010"%char) = [line1; line2].
Proof.
  intros [H1 [rest [-> H2]]]. rewrite (split_first _ _ _ H1).
  destruct H2 as [H2 [-> | [rest' ->]]].
  - by rewrite split_whole.
  - by rewrite split_first.
Qed.

(** C10. When the credentials file is there but its text has no line
    feed, the command raises while it unpacks the two names, and the
    world is as it was: no session, no call. *)
Theorem cli_single_line_credentials (creds : string) (limit : Z) (w : World)
    (content : string) :
  read_text (files w) creds = Some content ->
  Py.has_char content "010"%char = false ->
  cli server json_loads default_locale creds limit w = (Raise ValueError, w).
Proof.
  intros Hread Hline. unfold cli, bind, path_exists, read_file.
  rewrite (read_text_exists _ _ _ Hread). cbn [negb]. rewrite Hread.
  by rewrite (split_whole _ _ Hline).
Qed.

(** C8. When the credentials file is there, the first line of its text
    is the user name and the second the password: a session is created
    and the first call made is the login with these two. A command line
    without options stands for the path [./.adp-pass] and the limit 30. *)
Theorem cli_credentials_and_defaults :
  (forall creds limit w content user pass,
     read_text (files w) creds = Some content ->
     first_two_lines content user pass ->
     cli server json_loads default_locale creds limit w
     = (with_session
          (download_needed server json_loads default_locale
             (mkFetcher user pass []) limit) ;;; ret None) w
     /\ exists more,
          calls (cli server json_loads default_locale creds limit w).2
          = calls w ++ login_request user pass :: more)
  /\ (forall creds limit,
        cli_command server json_loads default_locale creds limit
        = cli server json_loads default_locale
            (default "./.adp-pass" creds) (default 30 limit))
  /\ cli_command server json_loads default_locale None None
     = cli server json_loads default_locale "./.adp-pass" 30.
Proof.
  split; [|by split].
  intros creds limit w content user pass Hread Hlines.
  assert (cli server json_loads default_locale creds limit w
          = (with_session
               (download_needed server json_loads default_locale
                  (mkFetcher user pass []) limit) ;;; ret None) w) as Hcli.
  { unfold cli at 1, bind at 1, path_exists, read_file.
    rewrite (read_text_exists _ _ _ Hread). cbn [negb].
    unfold bind at 1. rewrite Hread.
    by rewrite (first_two_lines_split _ _ _ Hlines). }
  split; [exact Hcli|]. rewrite Hcli. clear Hcli.
  unfold bind, with_session.
  set (w1 := mkWorld (files w) (stdout w) (calls w) (jar w)
               (S (sessions_created w)) (sessions_closed w)).
  destruct (download_needed_first_call (mkFetcher user pass []) limit w1)
    as [more Hm].
  exists more.
  by destruct (download_needed _ _ _ _ _ w1) as [[[]|e] w2].
Qed.
End Run.

(** ** The properties on the test run *)

Lemma download_paystub_failure_witness :
  exists w',
    download_paystub Scenario.server "2023-03-15" "/l2/doc3" Scenario.start
    = (Ok tt, w')
    /\ files w' = files Scenario.start
    /\ stdout w'
       = ["Got back 404 when trying to fetch 2023-03-15 at https://my.adp.com/doc3"].
Proof.
  destruct (download_paystub_failure Scenario.server "2023-03-15" "/l2/doc3"
              Scenario.start (mkResponse 404 "" []))
    as (w' & Hrun & Hfiles & Hout & _).
  - reflexivity.
  - cbn. lia.
  - exists w'. split; [exact Hrun|]. split; [exact Hfiles|]. exact Hout.
Defined.

Lemma download_paystub_success_witness :
  exists w',
    download_paystub Scenario.server "2023-02-15" "https://my.adp.com/doc2"
      Scenario.start
    = (Ok tt, w')
    /\ files w' !! "2023-02-15.pdf" = Some Scenario.pdf
    /\ stdout w' = ["Downloaded 2023-02-15.pdf"].
Proof.
  destruct (download_paystub_success Scenario.server "2023-02-15"
              "https://my.adp.com/doc2" (2023, 2, 15)%N Scenario.start
              (mkResponse 200 "" Scenario.pdf))
    as (w' & Hrun & _ & Hfile & Hout).
  - reflexivity.
  - reflexivity.
  - reflexivity.
  - exists w'. split; [exact Hrun|]. split; [exact Hfile|]. exact Hout.
Defined.

Lemma cli_missing_credentials_witness :
  exists w',
    cli Scenario.server Scenario.json_loads Scenario.locale "./.adp-pass" 30
      (empty_world ∅)
    = (Ok (Some (-1)), w')
    /\ stdout w' = ["Couldn't find creds!"]
    /\ calls w' = []
    /\ sessions_created w' = 0%nat.
Proof.
  destruct (cli_missing_credentials Scenario.server Scenario.json_loads
              Scenario.locale "./.adp-pass" 30 (empty_world ∅))
    as (w' & Hrun & Hout & Hcalls & Hsessions & _).
  - reflexivity.
  - exists w'. split; [exact Hrun|]. split; [exact Hout|].
    split; [exact Hcalls | exact Hsessions].
Defined.

Lemma cli_single_line_credentials_witness :
  let w := empty_world {[ "./.adp-pass" := String.list_byte_of_string "alice" ]} in
  cli Scenario.server Scenario.json_loads Scenario.locale "./.adp-pass" 30 w
  = (Raise ValueError, w).
Proof.
  cbn zeta.
  apply (cli_single_line_credentials Scenario.server Scenario.json_loads
           Scenario.locale "./.adp-pass" 30 _ "alice"); reflexivity.
Defined.

Lemma cli_credentials_and_defaults_witness :
  exists more,
    calls (cli Scenario.server Scenario.json_loads Scenario.locale
             "./.adp-pass" 30 Scenario.start).2
    = login_request "alice" "s3cret" :: more.
Proof.
  destruct (proj1 (cli_credentials_and_defaults Scenario.server
                     Scenario.json_loads Scenario.locale)
              "./.adp-pass" 30 Scenario.start Scenario.credentials
              "alice" "s3cret")
    as (_ & more & Hcalls).
  - reflexivity.
  - split; [reflexivity|]. exists ("s3cret" +:+ Scenario.line_feed).
    split; [reflexivity|]. split; [reflexivity|]. right. by exists "".
  - exists more. exact Hcalls.
Defined.

(** ** The scenario of the specification *)

Example specification_scenario :
  get_needed_paystubs {[ "2023-01-15.pdf" := [] ]}
    [("2023-01-15", "/l2/doc1"); ("2023-02-15", "https://my.adp.com/doc2")]
  = [("2023-02-15", "https://my.adp.com/doc2")].
Proof. by vm_compute. Qed.

(** ** The test run *)

Example scenario_result : Scenario.run.1 = Ok None.
Proof. by vm_compute. Qed.

Example scenario_stdout :
  stdout Scenario.run.2
  = ["Downloaded 2023-02-15.pdf";
     "Got back 404 when trying to fetch 2023-03-15 at https://my.adp.com/doc3"].
Proof. by vm_compute. Qed.

Example scenario_calls :
  calls Scenario.run.2
  = [login_request "alice" "s3cret";
     mkRequest GET LANDING_URL [] [] false;
     mkRequest GET UID_LOOKUP_URL [] [] false;
     mkRequest GET PAYSTUB_LIST_URL []
       [("adjustments", "yes"); ("numberoflastpaydates", "30")] false;
     download_request "https://my.adp.com/doc2";
     download_request "/l2/doc3"].
Proof. by vm_compute. Qed.

Example scenario_files :
  files Scenario.run.2 !! "2023-02-15.pdf" = Some Scenario.pdf
  /\ files Scenario.run.2 !! "2023-03-15.pdf" = None
  /\ files Scenario.run.2 !! "2023-01-15.pdf"
     = Some (String.list_byte_of_string "old").
Proof. by vm_compute. Qed.

Example scenario_sessions :
  jar Scenario.run.2
  = [("idtoken", JStr "G3XYZ"); ("ADPLangLocalCookie", JStr "en_US")]
  /\ sessions_created Scenario.run.2 = 1%nat
  /\ sessions_closed Scenario.run.2 = 1%nat.
Proof. by vm_compute. Qed.

(** * Further properties *)

(** ** The order of [sorted] *)

Lemma compare_refl (s : string) : String.compare s s = Eq.
Proof.
  pose proof (leb_refl s) as H. unfold String.leb in H.
  pose proof (String.compare_antisym s s) as Ha.
  destruct (String.compare s s); done.
Qed.

Lemma compare_lt_trans (s t u : string) :
  String.compare s t = Lt -> String.compare t u = Lt -> String.compare s u = Lt.
Proof.
  intros Hst Htu.
  assert (String.leb s u = true) as Hle.
  { apply (leb_trans s t u); unfold String.leb; by rewrite ?Hst, ?Htu. }
  unfold String.leb in Hle.
  destruct (String.compare s u) eqn:E; [|done|done].
  apply String.compare_eq_iff in E as ->.
  rewrite String.compare_antisym, Htu in Hst. done.
Qed.

Lemma item_le_cases (a b : string * string) :
  item_le a b
  <-> String.compare a.1 b.1 = Lt
      \/ (a.1 = b.1 /\ String.compare a.2 b.2 <> Gt).
Proof.
  unfold item_le, Py.item_ltb, String.ltb.
  rewrite (String.compare_antisym a.1 b.1), (String.compare_antisym a.2 b.2).
  destruct (String.compare b.1 a.1) eqn:E1; cbn.
  - apply String.compare_eq_iff in E1.
    destruct (String.compare b.2 a.2); cbn; intuition congruence.
  - assert (a.1 <> b.1).
    { intros Heq. rewrite Heq, compare_refl in E1. done. }
    intuition congruence.
  - intuition congruence.
Qed.

Lemma item_le_trans (a b c : string * string) :
  item_le a b -> item_le b c -> item_le a c.
Proof.
  rewrite !item_le_cases. intros [H1 | [H1 H1']] [H2 | [H2 H2']].
  - left. by eapply compare_lt_trans.
  - left. by rewrite <- H2.
  - left. by rewrite H1.
  - right. split; [congruence|].
    intros HGt.
    assert (String.leb a.2 c.2 = true) as Hle.
    { apply (leb_trans _ b.2); unfold String.leb.
      - by destruct (String.compare a.2 b.2).
      - by destruct (String.compare b.2 c.2). }
    unfold String.leb in Hle. by rewrite HGt in Hle.
Qed.

Lemma item_le_antisym (a b : string * string) :
  item_le a b -> item_le b a -> a = b.
Proof.
  rewrite !item_le_cases. intros [H1 | [H1 H1']] [H2 | [H2 H2']].
  - rewrite String.compare_antisym, H2 in H1. done.
  - rewrite H2, compare_refl in H1. done.
  - rewrite H1, compare_refl in H2. done.
  - destruct a as [a1 a2], b as [b1 b2]; cbn in *. f_equal; [done|].
    rewrite String.compare_antisym in H2'.
    destruct (String.compare a2 b2) eqn:E; [|done|done].
    by apply String.compare_eq_iff.
Qed.

Lemma insert_item_sorted_le (x : string * string) (l : list (string * string)) :
  StronglySorted item_le l -> StronglySorted item_le (Py.insert_item x l).
Proof.
  induction 1 as [|y l Hl IH Hy]; cbn [Py.insert_item].
  - by repeat constructor.
  - destruct (Py.item_ltb y x) eqn:E.
    + constructor; [done|].
      eapply Permutation_Forall; [symmetry; apply insert_item_perm|].
      constructor; [|done].
      apply item_le_cases. unfold Py.item_ltb, String.ltb in E.
      destruct (String.compare y.1 x.1) eqn:E1; [|by left|done].
      right. split; [by apply String.compare_eq_iff|].
      by destruct (String.compare y.2 x.2).
    + constructor; [by constructor|].
      constructor; [done|].
      eapply Forall_impl; [exact Hy|]. intros z Hz.
      by apply (item_le_trans x y z).
Qed.

Lemma sorted_sorted_le (l : list (string * string)) :
  StronglySorted item_le (Py.sorted l).
Proof.
  induction l as [|x l IH]; [constructor|]. by apply insert_item_sorted_le.
Qed.

(** Two sorted lists with the same elements are the same list. *)
Lemma sorted_unique (l l' : list (string * string)) :
  StronglySorted item_le l -> StronglySorted item_le l' ->
  Permutation l l' -> l = l'.
Proof.
  intros Hl. revert l'. induction Hl as [|x l Hl IH Hx]; intros l' Hl' Hp.
  - by apply Permutation_nil in Hp.
  - destruct Hl' as [|y l' Hl' Hy].
    { symmetry in Hp. by apply Permutation_nil in Hp. }
    assert (x = y) as ->.
    { assert (In x (y :: l')) as Hin
        by (eapply Permutation_in; [exact Hp | by left]).
      assert (In y (x :: l)) as Hin'
        by (eapply Permutation_in; [symmetry; exact Hp | by left]).
      destruct Hin as [->|Hin]; [done|].
      destruct Hin' as [->|Hin']; [done|].
      rewrite List.Forall_forall in Hx, Hy.
      apply item_le_antisym; [by apply Hx | by apply Hy]. }
    f_equal. apply IH; [done|]. by apply Permutation_cons_inv in Hp.
Qed.

Lemma sorted_permutation_eq (l l' : list (string * string)) :
  Permutation l l' -> Py.sorted l = Py.sorted l'.
Proof.
  intros Hp. apply sorted_unique; try apply sorted_sorted_le.
  by rewrite !sorted_perm.
Qed.

(** ** More on [get_needed_paystubs] *)

(** X1. Whatever the dates look like, a pair of the needed list is a pair
    of the mapping, and neither of the two paths the loop looks at
    exists for it: [<date>.pdf], and the year part joined with it. *)
Theorem needed_paystubs_invariant (fs : filesystem)
    (mapping : list (string * string)) (date url : string) :
  In (date, url) (get_needed_paystubs fs mapping) ->
  In (date, url) mapping
  /\ os_path_exists fs (_expected_file_name date) = false
  /\ os_path_exists fs
       (Py.os_path_join (year_of date) (_expected_file_name date)) = false.
Proof.
  rewrite needed_In. unfold have_locally. rewrite orb_false_iff. tauto.
Qed.

Lemma needed_paystubs_invariant_witness :
  os_path_exists {[ "2023-01-15.pdf" := [] ]} (_expected_file_name "2023-02-15")
  = false.
Proof.
  apply (needed_paystubs_invariant {[ "2023-01-15.pdf" := [] ]}
           [("2023-01-15", "/l2/doc1"); ("2023-02-15", "/l2/doc2")]
           "2023-02-15" "/l2/doc2").
  vm_compute. by left.
Defined.

Lemma filter_perm {A} (f : A -> bool) (l l' : list A) :
  Permutation l l' -> Permutation (List.filter f l) (List.filter f l').
Proof.
  induction 1 as [|x l l' Hp IH|x y l|l l' l'' Hp IH Hp' IH']; cbn.
  - done.
  - destruct (f x); [by constructor | done].
  - destruct (f x), (f y); try done. apply perm_swap.
  - by etrans.
Qed.

(** X2. The needed list does not depend on the order in which the
    statements entered the mapping. *)
Theorem needed_paystubs_order_independent (fs : filesystem)
    (mapping mapping' : list (string * string)) :
  Permutation mapping mapping' ->
  get_needed_paystubs fs mapping = get_needed_paystubs fs mapping'.
Proof.
  intros Hp. unfold get_needed_paystubs. apply sorted_permutation_eq.
  rewrite !needed_loop_filter. cbn [app]. by apply filter_perm.
Qed.

Lemma needed_paystubs_order_independent_witness :
  get_needed_paystubs ∅ [("2023-02-15", "b"); ("2023-01-15", "a")]
  = get_needed_paystubs ∅ [("2023-01-15", "a"); ("2023-02-15", "b")].
Proof.
  apply needed_paystubs_order_independent. apply perm_swap.
Defined.

Lemma ltb_of_leb (s t : string) :
  String.leb s t = true -> s <> t -> String.ltb s t = true.
Proof.
  unfold String.leb, String.ltb. intros Hle Hne.
  destruct (String.compare s t) eqn:E; [|done|done].
  by apply String.compare_eq_iff in E.
Qed.

Lemma sorted_distinct_strict (l : list (string * string)) :
  StronglySorted date_le l -> NoDup (map fst l) -> StronglySorted date_lt l.
Proof.
  induction 1 as [|x l Hl IH Hx]; intros Hnd; [constructor|].
  cbn in Hnd. apply NoDup_cons in Hnd as [Hx' Hnd].
  constructor; [by apply IH|].
  rewrite List.Forall_forall in Hx |- *. intros y Hy.
  apply ltb_of_leb; [by apply Hx|].
  intros Heq. apply Hx'. rewrite Heq. apply list_elem_of_In.
  by apply in_map.
Qed.

Lemma filter_keys_NoDup (f : string * string -> bool)
    (l : list (string * string)) :
  NoDup (map fst l) -> NoDup (map fst (List.filter f l)).
Proof.
  induction l as [|x l IH]; [done|]. cbn. intros Hnd.
  apply NoDup_cons in Hnd as [Hx Hnd]. destruct (f x); [|by apply IH].
  cbn. apply NoDup_cons. split; [|by apply IH].
  intros Hin. apply Hx. apply list_elem_of_In in Hin.
  apply list_elem_of_In. apply in_map_iff in Hin as (y & Hy & Hin).
  apply in_map_iff. exists y. split; [done|].
  by apply List.filter_In in Hin as [Hin _].
Qed.

(** X3. A dict has each date once; then the dates of the needed list
    are strictly increasing, so no date is listed twice. *)
Theorem needed_paystubs_strictly_sorted (fs : filesystem)
    (mapping : list (string * string)) :
  NoDup (map fst mapping) ->
  StronglySorted date_lt (get_needed_paystubs fs mapping).
Proof.
  intros Hnd. apply sorted_distinct_strict; [apply sorted_sorted|].
  apply NoDup_ListNoDup. eapply Permutation_NoDup.
  - apply Permutation_map. symmetry. apply needed_perm.
  - apply NoDup_ListNoDup. by apply filter_keys_NoDup.
Qed.

Lemma needed_paystubs_strictly_sorted_witness :
  StronglySorted date_lt
    (get_needed_paystubs ∅ [("2023-02-15", "b"); ("2023-01-15", "a")]).
Proof.
  apply needed_paystubs_strictly_sorted.
  apply (bool_decide_unpack _). by vm_compute.
Defined.

(** ** More on [_transform_download_url] *)

Lemma replace_from_miss (old new : string) (c : ascii) (s : string) :
  String.prefix old (String c s) = false ->
  Py.replace_from O old new (String c s)
  = String c (Py.replace_from O old new s).
Proof. intros H. cbn [Py.replace_from]. by rewrite H. Qed.

Lemma prefix_l2_straddle (c : ascii) (a s : string) :
  String.prefix "/l2" (String c a) = false ->
  String.prefix "/l2" (String c (a +:+ "/l2" +:+ s)) = false.
Proof.
  rewrite !prefix_cons.
  destruct (bool_decide ("/"%char = c)); [cbn [andb]|done].
  destruct a as [|c1 a]; [done|].
  rewrite (str_app_cons c1 a), !prefix_cons.
  destruct (bool_decide ("l"%char = c1)); [cbn [andb]|done].
  destruct a as [|c2 a]; [done|].
  rewrite (str_app_cons c2 a), !prefix_cons.
  destruct (bool_decide ("2"%char = c2)); [cbn [andb]|done].
  by rewrite !prefix_nil.
Qed.

Lemma replace_clean_prefix (new a s : string) :
  Py.contains a "/l2" = false ->
  Py.replace_from O "/l2" new (a +:+ "/l2" +:+ s)
  = a +:+ Py.replace_from O "/l2" new ("/l2" +:+ s).
Proof.
  induction a as [|c a IH]; [done|]. intros H.
  cbn [Py.contains] in H. apply orb_false_iff in H as [Hc Ha].
  rewrite !(str_app_cons c a).
  rewrite replace_from_miss by by apply prefix_l2_straddle.
  by rewrite (IH Ha).
Qed.

(** X4. The rewrite is not limited to the front of the URL: when the
    path behind the leading ["/l2"] holds ["/l2"] once more, that
    occurrence is replaced by the host as well. *)
Theorem transform_download_url_every_occurrence (a b : string) :
  Py.contains a "/l2" = false -> Py.contains b "/l2" = false ->
  _transform_download_url ("/l2" +:+ a +:+ "/l2" +:+ b)
  = "https://my.adp.com" +:+ a +:+ "https://my.adp.com" +:+ b.
Proof.
  intros Ha Hb. rewrite transform_relative. unfold Py.replace.
  rewrite (replace_clean_prefix _ _ _ Ha), replace_occurrence by done.
  by rewrite replace_absent.
Qed.

Lemma transform_download_url_every_occurrence_witness :
  _transform_download_url ("/l2" +:+ "/docs" +:+ "/l2" +:+ "/a.pdf")
  = "https://my.adp.com" +:+ "/docs" +:+ "https://my.adp.com" +:+ "/a.pdf".
Proof.
  apply transform_download_url_every_occurrence; reflexivity.
Defined.

(** X5. What comes out never begins with ["/l2"]; and a URL that did
    begin with it comes out beginning with the host. *)
Theorem transform_download_url_never_relative (url : string) :
  Py.startswith (_transform_download_url url) "/l2" = false
  /\ (Py.startswith url "/l2" = true ->
      Py.startswith (_transform_download_url url) "https://my.adp.com" = true).
Proof.
  split.
  - destruct (Py.startswith url "/l2") eqn:H.
    + by apply transform_absolute.
    + by rewrite transform_other.
  - unfold Py.startswith. intros [rest ->]%prefix_inv.
    rewrite transform_relative. apply prefix_app.
Qed.

Lemma transform_download_url_never_relative_witness :
  Py.startswith (_transform_download_url "/l2/doc1") "https://my.adp.com" = true.
Proof.
  apply (proj2 (transform_download_url_never_relative "/l2/doc1")).
  reflexivity.
Defined.

(** ** The dict of [get_paystub_urls] *)

Lemma dict_get_set (d : list (string * string)) (k v k' : string) :
  dict_get (dict_set d k v) k'
  = if bool_decide (k = k') then Some v else dict_get d k'.
Proof.
  unfold dict_get. induction d as [|[k0 v0] d IH]; cbn.
  - by destruct (bool_decide (k = k')).
  - destruct (bool_decide (k0 = k)) eqn:E0; cbn.
    + apply bool_decide_eq_true_1 in E0 as ->.
      by destruct (bool_decide (k = k')).
    + destruct (bool_decide (k0 = k')) eqn:E1; cbn; [|exact IH].
      apply bool_decide_eq_true_1 in E1 as ->.
      apply bool_decide_eq_false_1 in E0.
      by rewrite bool_decide_eq_false_2 by congruence.
Qed.

Lemma dict_set_keys (d : list (string * string)) (k v : string) :
  map fst (dict_set d k v)
  = if bool_decide (k ∈ map fst d) then map fst d else map fst d ++ [k].
Proof.
  induction d as [|[k0 v0] d IH].
  { cbn. rewrite bool_decide_eq_false_2; [done|]. by intros ?%elem_of_nil. }
  cbn [dict_set]. destruct (bool_decide (k0 = k)) eqn:E0; cbn.
  - apply bool_decide_eq_true_1 in E0 as ->.
    by rewrite bool_decide_eq_true_2 by (apply elem_of_cons; by left).
  - apply bool_decide_eq_false_1 in E0. rewrite IH.
    destruct (bool_decide (k ∈ map fst d)) eqn:E1.
    + apply bool_decide_eq_true_1 in E1.
      by rewrite bool_decide_eq_true_2 by (apply elem_of_cons; by right).
    + apply bool_decide_eq_false_1 in E1.
      rewrite bool_decide_eq_false_2; [done|].
      intros [?|?]%elem_of_cons; [congruence | done].
Qed.

Lemma dict_set_NoDup (d : list (string * string)) (k v : string) :
  NoDup (map fst d) -> NoDup (map fst (dict_set d k v)).
Proof.
  intros H. rewrite dict_set_keys.
  destruct (bool_decide (k ∈ map fst d)) eqn:E; [done|].
  apply bool_decide_eq_false_1 in E.
  apply NoDup_app. split; [done|]. split; [|apply NoDup_singleton].
  by intros x Hx ->%list_elem_of_singleton.
Qed.

Lemma add_statement_NoDup (acc acc' : list (string * string)) (st : json) :
  add_statement acc st = Ok acc' ->
  NoDup (map fst acc) -> NoDup (map fst acc').
Proof.
  unfold add_statement. intros H Hnd.
  destruct (getitem st "payDate") as [k|]; [|done].
  destruct (getitem st "statementImageUri") as [uri|]; [|done].
  destruct (getitem uri "href") as [v|]; [|done].
  destruct k; try done. destruct v; try done.
  injection H as <-. by apply dict_set_NoDup.
Qed.

Lemma add_statements_NoDup (l : list json) (acc acc' : list (string * string)) :
  add_statements acc l = Ok acc' ->
  NoDup (map fst acc) -> NoDup (map fst acc').
Proof.
  revert acc. induction l as [|st l IH]; intros acc H Hnd; cbn in H.
  - by injection H as <-.
  - destruct (add_statement acc st) as [acc1|] eqn:E; [|done].
    eapply IH; [exact H|]. by eapply add_statement_NoDup.
Qed.

Lemma add_statement_carries (acc : list (string * string)) (st : json)
    (date href : string) :
  carries st date href ->
  add_statement acc st = Ok (dict_set acc date href).
Proof.
  intros (Hdate & uri & Huri & Hhref). unfold add_statement.
  by rewrite Hdate, Huri, Hhref.
Qed.

Lemma add_statements_carry (statements : list json)
    (l acc : list (string * string)) :
  Forall2 (fun st p => carries st p.1 p.2) statements l ->
  add_statements acc statements
  = Ok (fold_left (fun d p => dict_set d p.1 p.2) l acc).
Proof.
  intros H. revert acc. induction H as [|st p statements l Hst H IH];
    intros acc; [done|].
  cbn [add_statements fold_left].
  by rewrite (add_statement_carries _ _ _ _ Hst), IH.
Qed.

Lemma find_app {A} (f : A -> bool) (l1 l2 : list A) :
  List.find f (l1 ++ l2)
  = match List.find f l1 with Some x => Some x | None => List.find f l2 end.
Proof.
  induction l1 as [|x l1 IH]; [done|]. cbn. by destruct (f x).
Qed.

Lemma dict_get_fold (l acc : list (string * string)) (date : string) :
  dict_get (fold_left (fun d p => dict_set d p.1 p.2) l acc) date
  = match last_href l date with
    | Some href => Some href
    | None => dict_get acc date
    end.
Proof.
  revert acc. induction l as [|p l IH]; intros acc; [done|].
  cbn [fold_left]. rewrite IH, dict_get_set.
  unfold last_href. cbn [rev]. rewrite find_app. cbn [List.find].
  destruct (List.find _ (rev l)); [done|].
  by destruct (bool_decide (p.1 = date)).
Qed.

(** X6. Take statements that each carry a string for the pay date and
    a string for the document address, whatever else they hold. The
    mapping built from them has every date once, and a date that several
    statements carry is bound to the address of the last of them. *)
Theorem paystub_mapping_last_statement_wins (statements : list json)
    (l : list (string * string)) :
  Forall2 (fun st p => carries st p.1 p.2) statements l ->
  exists mapping,
    add_statements [] statements = Ok mapping
    /\ NoDup (map fst mapping)
    /\ forall date, dict_get mapping date = last_href l date.
Proof.
  intros H. eexists. split; [by apply add_statements_carry|]. split.
  - eapply add_statements_NoDup; [by apply add_statements_carry | constructor].
  - intros date. rewrite dict_get_fold. by destruct (last_href l date).
Qed.

Lemma paystub_mapping_last_statement_wins_witness :
  exists mapping,
    add_statements []
      [JObj [("payDate", JStr "2023-01-15"); ("netPay", JNum 100);
             ("statementImageUri", JObj [("href", JStr "/l2/a")])];
       JObj [("statementImageUri",
              JObj [("rel", JNull); ("href", JStr "/l2/b")]);
             ("payDate", JStr "2023-01-15")]]
    = Ok mapping
    /\ NoDup (map fst mapping)
    /\ forall date,
         dict_get mapping date
         = last_href [("2023-01-15", "/l2/a"); ("2023-01-15", "/l2/b")] date.
Proof.
  apply paystub_mapping_last_statement_wins.
  repeat constructor; eexists; split; reflexivity.
Defined.

(** ** What a run can do to the world *)

Lemma evolves_refl (w : World) : evolves w w.
Proof.
  repeat split; try done; exists []; by rewrite app_nil_r.
Qed.

Lemma evolves_trans (w1 w2 w3 : World) :
  evolves w1 w2 -> evolves w2 w3 -> evolves w1 w3.
Proof.
  intros ([c1 C1] & [o1 O1] & [j1 J1] & K1 & P1 & S1 & S1')
         ([c2 C2] & [o2 O2] & [j2 J2] & K2 & P2 & S2 & S2').
  repeat split.
  - exists (c1 ++ c2). by rewrite C2, C1, app_assoc.
  - exists (o1 ++ o2). by rewrite O2, O1, app_assoc.
  - exists (j1 ++ j2). by rewrite J2, J1, app_assoc.
  - intros path H. by apply K2, K1.
  - intros path H. by rewrite P2, P1.
  - congruence.
  - congruence.
Qed.

Lemma well_behaved_ret {A} (a : A) : well_behaved (ret a).
Proof. intros w. apply evolves_refl. Qed.

Lemma well_behaved_raise {A} (e : exn) : well_behaved (@raise A e).
Proof. intros w. apply evolves_refl. Qed.

Lemma well_behaved_lift {A} (r : result A) : well_behaved (lift r).
Proof. intros w. apply evolves_refl. Qed.

Lemma well_behaved_bind {A B} (c : M A) (k : A -> M B) :
  well_behaved c -> (forall a, well_behaved (k a)) -> well_behaved (bind c k).
Proof.
  intros Hc Hk w. unfold bind. pose proof (Hc w) as H1.
  destruct (c w) as [[a|e] w1]; cbn [snd] in *; [|done].
  eapply evolves_trans; [exact H1 | apply Hk].
Qed.

Lemma well_behaved_for_each {A} (l : list A) (body : A -> M unit) :
  (forall x, well_behaved (body x)) -> well_behaved (for_each l body).
Proof.
  intros H. induction l as [|x l IH]; cbn [for_each].
  - apply well_behaved_ret.
  - apply well_behaved_bind; [apply H | intros _; apply IH].
Qed.

Lemma well_behaved_print (line : string) : well_behaved (print line).
Proof.
  intros w. repeat split; try done; cbn;
    [exists [] | by eexists | exists []]; by rewrite app_nil_r.
Qed.

Lemma well_behaved_add_dict_to_cookiejar (d : list (string * json)) :
  well_behaved (add_dict_to_cookiejar d).
Proof.
  intros w. unfold add_dict_to_cookiejar.
  destruct (forallb _ d); [|apply evolves_refl].
  repeat split; try done; cbn;
    [exists [] | exists [] | by eexists]; by rewrite app_nil_r.
Qed.

Lemma well_behaved_open_wb (date : string) :
  well_behaved (open_wb (_expected_file_name date)).
Proof.
  intros w. unfold open_wb. destruct (_ || _); [|apply evolves_refl].
  repeat split; try done; cbn; try (exists []; by rewrite app_nil_r).
  - intros path H. destruct (decide (_expected_file_name date = path)) as [->|].
    + rewrite lookup_insert_eq. by eexists.
    + by rewrite lookup_insert_ne.
  - intros path H. apply lookup_insert_ne. apply not_eq_sym, H.
Qed.

Lemma well_behaved_copyfileobj (src : bytes) (date : string) :
  well_behaved (copyfileobj src (_expected_file_name date)).
Proof.
  intros w. repeat split; try done; cbn; try (exists []; by rewrite app_nil_r).
  - intros path H. destruct (decide (_expected_file_name date = path)) as [->|].
    + rewrite lookup_alter_eq. destruct H as [x ->]. by eexists.
    + by rewrite lookup_alter_ne.
  - intros path H. apply lookup_alter_ne. apply not_eq_sym, H.
Qed.

Section Behaviour.
Variable server : list Request -> Request -> option Response.
Variable json_loads : string -> option json.
Variable default_locale : option string.

Lemma send_world (rq : Request) (w : World) :
  (send server rq w).2 = with_call w rq.
Proof. unfold send. by destruct (server (calls w) rq). Qed.

Lemma well_behaved_send (rq : Request) : well_behaved (send server rq).
Proof.
  intros w. rewrite send_world.
  repeat split; try done; cbn; [by eexists | exists [] | exists []];
    by rewrite app_nil_r.
Qed.

Lemma well_behaved_loads (s : string) : well_behaved (loads json_loads s).
Proof.
  unfold loads. destruct (json_loads s);
    [apply well_behaved_ret | apply well_behaved_raise].
Qed.

Ltac behaved :=
  repeat first
    [ apply well_behaved_ret | apply well_behaved_raise
    | apply well_behaved_lift | apply well_behaved_print
    | apply well_behaved_add_dict_to_cookiejar
    | apply well_behaved_open_wb | apply well_behaved_copyfileobj
    | apply well_behaved_send | apply well_behaved_loads
    | apply well_behaved_bind; [|intros ?]
    | apply well_behaved_for_each; intros ? ].

Lemma well_behaved_download_paystub (date url : string) :
  well_behaved (download_paystub server date url).
Proof.
  unfold download_paystub, session_get.
  apply well_behaved_bind; [behaved|]. intros response.
  destruct (negb _); behaved.
Qed.

Lemma well_behaved_download_all (needed : list (string * string)) :
  well_behaved (download_all server needed).
Proof.
  apply well_behaved_for_each. intros ?. apply well_behaved_download_paystub.
Qed.

Lemma well_behaved_download_needed (self : PayCheckFetcher) (limit : Z) :
  well_behaved (download_needed server json_loads default_locale self limit).
Proof.
  unfold download_needed.
  apply well_behaved_bind; [unfold log_in, session_post; behaved|intros _].
  apply well_behaved_bind;
    [unfold get_all_the_cookies, session_get; behaved|intros _].
  apply well_behaved_bind; [unfold get_uid, session_get; behaved|intros _].
  apply well_behaved_bind;
    [unfold get_paystub_urls, session_get; behaved|intros self'].
  apply well_behaved_bind; [intros w; apply evolves_refl|intros needed].
  apply (well_behaved_download_all needed).
Qed.
End Behaviour.

Section Runs.
Variable server : list Request -> Request -> option Response.
Variable json_loads : string -> option json.
Variable default_locale : option string.

(** ** More on [download_paystub] and the download loop *)

Lemma download_paystub_answered (date url : string) (w : World)
    (response : Response) :
  is_Some (parse_date date) ->
  server (calls w) (download_request url) = Some response ->
  exists w',
    download_paystub server date url w = (Ok tt, w')
    /\ calls w' = calls w ++ [download_request url]
    /\ (status_code response = 200 ->
        files w' = <[_expected_file_name date := raw response]> (files w))
    /\ length (stdout w') = S (length (stdout w)).
Proof.
  intros [t Hdate] Hresp. pose proof (parse_date_plain _ _ Hdate) as Hplain.
  destruct (decide (status_code response = 200)) as [Hcode|Hcode].
  - rewrite (download_paystub_200 server _ _ _ _ Hplain Hresp Hcode).
    eexists. split; [reflexivity|]. cbn. split; [done|]. split; [done|].
    rewrite length_app. cbn. lia.
  - unfold download_request in Hresp.
    unfold download_paystub, session_get, bind.
    rewrite (send_answer _ _ _ _ Hresp).
    apply Z.eqb_neq in Hcode. rewrite Hcode. cbn [negb].
    eexists. split; [reflexivity|]. cbn. split; [done|]. split.
    + intros H. apply Z.eqb_neq in Hcode. done.
    + rewrite length_app. cbn. lia.
Qed.

(** X7. Take a needed list with dates in the format [YYYY-MM-DD] and
    documents at [http] or [https] addresses. When every call of the
    download loop gets an answer, whatever the status codes, the loop
    returns normally after one call and one printed line per item, the
    calls made in the order of the list. *)
Theorem download_all_one_call_each (needed : list (string * string))
    (w : World) :
  http_urls needed ->
  iso_dates needed ->
  loop_answered server (fun _ => True) (calls w) needed ->
  exists w',
    download_all server needed w = (Ok tt, w')
    /\ calls w' = calls w ++ map (fun item => download_request item.2) needed
    /\ length (stdout w') = (length (stdout w) + length needed)%nat.
Proof.
  intros _. revert w.
  induction needed as [|[date url] needed IH]; intros w Hiso Hans.
  - exists w. split; [done|]. cbn. rewrite app_nil_r. split; [done|lia].
  - apply Forall_cons in Hiso as [Hdate Hiso].
    destruct Hans as [(response & Hresp & _) Hans]. cbn [fst snd] in *.
    destruct (download_paystub_answered date url w response Hdate Hresp)
      as (w1 & Hrun & Hcalls & _ & Hout).
    rewrite <- Hcalls in Hans.
    destruct (IH w1 Hiso Hans) as (w' & Hrest & Hcalls' & Hout').
    exists w'. split; [|split].
    + unfold download_all in *. cbn [for_each]. unfold bind at 1.
      cbn [fst snd]. by rewrite Hrun.
    + rewrite Hcalls', Hcalls. cbn [map snd]. by rewrite <- app_assoc.
    + rewrite Hout', Hout. cbn [length]. lia.
Qed.

(** X8. When a download gets no answer at all, [download_paystub] raises
    after that one call, with no file written and nothing printed, and
    the loop stops there: the items behind it are not asked for. *)
Theorem download_paystub_connection_failure (date url : string)
    (rest : list (string * string)) (w : World) :
  server (calls w) (download_request url) = None ->
  download_paystub server date url w
  = (Raise ConnectionError, with_call w (download_request url))
  /\ download_all server ((date, url) :: rest) w
     = (Raise ConnectionError, with_call w (download_request url)).
Proof.
  intros Hresp. unfold download_request in Hresp.
  assert (download_paystub server date url w
          = (Raise ConnectionError, with_call w (download_request url)))
    as Hrun.
  { unfold download_paystub, session_get, bind, send. by rewrite Hresp. }
  split; [exact Hrun|].
  unfold download_all. cbn [for_each]. unfold bind. cbn [fst snd].
  by rewrite Hrun.
Qed.

Lemma os_path_exists_insert (fs : filesystem) (path : string) (content : bytes) :
  os_path_exists (<[path := content]> fs) path = true.
Proof.
  unfold os_path_exists. apply bool_decide_eq_true_2.
  rewrite lookup_insert_eq. by eexists.
Qed.

Lemma os_path_exists_kept (fs fs' : filesystem) (path : string) :
  (forall p, is_Some (fs !! p) -> is_Some (fs' !! p)) ->
  os_path_exists fs path = true -> os_path_exists fs' path = true.
Proof.
  unfold os_path_exists. intros H H1%bool_decide_eq_true_1.
  apply bool_decide_eq_true_2. by apply H.
Qed.

Lemma have_locally_kept (fs fs' : filesystem) (date : string) :
  (forall p, is_Some (fs !! p) -> is_Some (fs' !! p)) ->
  have_locally fs date = true -> have_locally fs' date = true.
Proof.
  unfold have_locally. intros H [H1|H1]%orb_true_iff; apply orb_true_iff;
    [left | right]; by eapply os_path_exists_kept.
Qed.

(** After a loop in which every download succeeds, the files that were
    there are still there and every item of the list has its file. *)
Lemma download_all_success_files (needed : list (string * string))
    (w : World) :
  iso_dates needed ->
  loop_answered server (fun response => status_code response = 200)
    (calls w) needed ->
  exists w',
    download_all server needed w = (Ok tt, w')
    /\ (forall p, is_Some (files w !! p) -> is_Some (files w' !! p))
    /\ (forall date url,
          In (date, url) needed ->
          os_path_exists (files w') (_expected_file_name date) = true).
Proof.
  revert w. induction needed as [|[date url] needed IH]; intros w Hiso Hans.
  - exists w. split; [done|]. split; [done|]. by intros ?? [].
  - apply Forall_cons in Hiso as [Hdate Hiso].
    destruct Hans as [(response & Hresp & Hcode) Hans]. cbn [fst snd] in *.
    destruct (download_paystub_answered date url w response Hdate Hresp)
      as (w1 & Hrun & Hcalls & Hfiles & _).
    specialize (Hfiles Hcode). rewrite <- Hcalls in Hans.
    destruct (IH w1 Hiso Hans) as (w' & Hrest & Hkept & Hall).
    exists w'. split; [|split].
    + unfold download_all in *. cbn [for_each]. unfold bind at 1.
      cbn [fst snd]. by rewrite Hrun.
    + intros p Hp. apply Hkept. rewrite Hfiles.
      apply lookup_insert_is_Some'. by right.
    + intros d u [[= <- <-]|Hin]; [|by eapply Hall].
      eapply os_path_exists_kept; [exact Hkept|].
      rewrite Hfiles. apply os_path_exists_insert.
Qed.

Lemma filter_none {A} (f : A -> bool) (l : list A) :
  (forall x, In x l -> f x = false) -> List.filter f l = [].
Proof.
  induction l as [|x l IH]; [done|]. intros H. cbn.
  rewrite (H x) by by left. apply IH. intros y Hy. apply H. by right.
Qed.

(** X9. Take a mapping with dates in the format [YYYY-MM-DD] and
    documents at [http] or [https] addresses. When every download of its
    needed list is answered with status 200, nothing is left to do: the
    loop returns, and the needed list of the same mapping on the files
    it leaves is empty. *)
Theorem download_all_leaves_nothing_needed
    (mapping : list (string * string)) (w : World) :
  http_urls mapping ->
  iso_dates mapping ->
  loop_answered server (fun response => status_code response = 200)
    (calls w) (get_needed_paystubs (files w) mapping) ->
  exists w',
    download_all server (get_needed_paystubs (files w) mapping) w
    = (Ok tt, w')
    /\ get_needed_paystubs (files w') mapping = [].
Proof.
  intros _ Hiso Hans.
  assert (iso_dates (get_needed_paystubs (files w) mapping)) as Hiso'.
  { unfold iso_dates in *. rewrite List.Forall_forall in Hiso |- *.
    intros [date url] Hin. apply needed_In in Hin as [Hin _].
    by apply (Hiso (date, url)). }
  destruct (download_all_success_files _ w Hiso' Hans)
    as (w' & Hrun & Hkept & Hall).
  exists w'. split; [exact Hrun|].
  apply Permutation_nil. symmetry. rewrite needed_perm.
  rewrite filter_none; [done|].
  intros [date url] Hin. cbn [fst]. apply negb_false_iff.
  destruct (have_locally (files w) date) eqn:E.
  - by eapply have_locally_kept.
  - unfold have_locally. apply orb_true_iff. left.
    apply (Hall date url). apply needed_In. by split.
Qed.

(** ** [get_uid] and [get_paystub_urls] *)

(** X10. [get_uid] makes one call, to the identity address, and touches
    neither files nor output. Without an answer it raises the connection
    error; with an answer that is not JSON, the decoding error; with
    JSON that is not an object, or an object without ["associateoid"],
    the error of the subscript; the cookies are then as they were. With
    a string for the identifier and a locale that is known it returns,
    and the session has two more cookies, the identifier first. *)
Theorem get_uid_outcome (self : PayCheckFetcher) (w : World) :
  let run := get_uid server json_loads default_locale self w in
  (calls run.2 = calls w ++ [identity_request]
   /\ files run.2 = files w /\ stdout run.2 = stdout w)
  /\ (server (calls w) identity_request = None ->
      run.1 = Raise ConnectionError /\ jar run.2 = jar w)
  /\ (forall response,
        server (calls w) identity_request = Some response ->
        (json_loads (text response) = None ->
         run.1 = Raise JSONDecodeError /\ jar run.2 = jar w)
        /\ (forall info e,
              json_loads (text response) = Some info ->
              getitem info "associateoid" = Raise e ->
              run.1 = Raise e /\ (e = KeyError \/ e = TypeError)
              /\ jar run.2 = jar w)
        /\ (forall info oid loc,
              json_loads (text response) = Some info ->
              getitem info "associateoid" = Ok (JStr oid) ->
              default_locale = Some loc ->
              run.1 = Ok tt
              /\ jar run.2
                 = jar w ++ [("idtoken", JStr oid);
                             ("ADPLangLocalCookie", JStr loc)])).
Proof.
  cbn zeta. unfold get_uid, session_get, bind, send, loads, lift,
    add_dict_to_cookiejar, identity_request.
  destruct (server (calls w) _) as [response|] eqn:Hresp; cbn.
  2:{ split; [done|]. split; [done|]. by intros response. }
  split.
  { destruct (json_loads (text response)) as [info|]; cbn; [|done].
    destruct (getitem info "associateoid") as [oid|e]; cbn; [|done].
    by destruct (is_json_string oid && _). }
  split; [done|]. intros ? [= <-]. split; [|split].
  - by intros ->.
  - intros info e Hjson Hget. rewrite Hjson. cbn. rewrite Hget. cbn.
    split; [done|]. split; [|done].
    unfold getitem in Hget. destruct info; simplify_eq; auto.
    destruct (List.find _ _); simplify_eq; auto.
  - intros info oid loc Hjson Hget ->. rewrite Hjson. cbn. rewrite Hget.
    by cbn.
Qed.

Lemma get_paystub_urls_world (self : PayCheckFetcher) (limit : Z)
    (adjustments : string) (w : World) :
  (get_paystub_urls server json_loads self limit adjustments w).2
  = with_call w (listing_request limit adjustments).
Proof.
  unfold get_paystub_urls, session_get, bind, send, loads, lift,
    listing_request, with_call.
  destruct (server (calls w) _) as [response|]; cbn; [|done].
  destruct (json_loads (text response)) as [info|]; cbn; [|done].
  destruct (getitem info "payStatements") as [statements|]; cbn; [|done].
  destruct (iterate statements) as [l|]; cbn; [|done].
  by destruct (add_statements [] l).
Qed.

Lemma get_paystub_urls_result (self self' : PayCheckFetcher) (limit : Z)
    (adjustments : string) (w : World) :
  (get_paystub_urls server json_loads self limit adjustments w).1 = Ok self' ->
  username self' = username self
  /\ password self' = password self
  /\ NoDup (map fst (paystub_url_by_date self')).
Proof.
  unfold get_paystub_urls, session_get, bind, send, loads, lift.
  destruct (server (calls w) _) as [response|]; cbn; [|done].
  destruct (json_loads (text response)) as [info|]; cbn; [|done].
  destruct (getitem info "payStatements") as [statements|]; cbn; [|done].
  destruct (iterate statements) as [l|]; cbn; [|done].
  destruct (add_statements [] l) as [d|] eqn:E; cbn; [|done].
  intros [= <-]. cbn. repeat split.
  eapply add_statements_NoDup; [exact E | constructor].
Qed.

(** X11. [get_paystub_urls] makes one call, to the listing address with
    the limit and the adjustments flag as its parameters, and changes
    nothing else in the world. The fetcher it returns has the same
    credentials and a mapping in which every date occurs once. *)
Theorem get_paystub_urls_outcome (self : PayCheckFetcher) (limit : Z)
    (adjustments : string) (w : World) :
  let run := get_paystub_urls server json_loads self limit adjustments w in
  run.2 = with_call w (listing_request limit adjustments)
  /\ forall self',
       run.1 = Ok self' ->
       username self' = username self
       /\ password self' = password self
       /\ NoDup (map fst (paystub_url_by_date self')).
Proof.
  cbn zeta. split; [apply get_paystub_urls_world|].
  intros self'. apply get_paystub_urls_result.
Qed.

(** ** [download_needed] *)

Lemma log_in_world (self : PayCheckFetcher) (w : World) :
  (log_in server self w).2
  = with_call w (login_request (username self) (password self)).
Proof.
  unfold log_in, session_post, bind, send, login_request, with_call.
  by destruct (server (calls w) _).
Qed.

Lemma get_all_the_cookies_world (self : PayCheckFetcher) (w : World) :
  (get_all_the_cookies server self w).2 = with_call w landing_request.
Proof.
  unfold get_all_the_cookies, session_get, bind, send, landing_request,
    with_call.
  by destruct (server (calls w) _).
Qed.

Lemma get_uid_world (self : PayCheckFetcher) (w : World) :
  calls (get_uid server json_loads default_locale self w).2
  = calls w ++ [identity_request]
  /\ files (get_uid server json_loads default_locale self w).2 = files w.
Proof.
  unfold get_uid, session_get, bind, send, loads, lift, identity_request.
  destruct (server (calls w) _) as [response|]; cbn; [|done].
  destruct (json_loads (text response)) as [info|]; cbn; [|done].
  destruct (getitem info "associateoid") as [oid|]; cbn; [|done].
  unfold add_dict_to_cookiejar. by destruct (forallb _ _).
Qed.

Lemma get_paystub_urls_built (self self' : PayCheckFetcher) (limit : Z)
    (adjustments : string) (w : World) :
  (get_paystub_urls server json_loads self limit adjustments w).1 = Ok self' ->
  listing_mapping server json_loads (calls w) limit adjustments
    (paystub_url_by_date self').
Proof.
  unfold get_paystub_urls, session_get, bind, send, loads, lift,
    listing_mapping, listing_request.
  destruct (server (calls w) _) as [response|]; cbn; [|done].
  destruct (json_loads (text response)) as [info|] eqn:Hjson; cbn; [|done].
  destruct (getitem info "payStatements") as [statements|] eqn:Hget; cbn;
    [|done].
  destruct (iterate statements) as [l|] eqn:Hiter; cbn; [|done].
  destruct (add_statements [] l) as [d|] eqn:E; cbn; [|done].
  intros [= <-]. cbn. by exists response, info, statements, l.
Qed.

Lemma download_all_calls (needed : list (string * string)) (w w' : World) :
  download_all server needed w = (Ok tt, w') ->
  calls w' = calls w ++ map (fun item => download_request item.2) needed.
Proof.
  revert w. induction needed as [|[date url] needed IH]; intros w.
  - intros [= <-]. cbn. by rewrite app_nil_r.
  - unfold download_all. cbn [for_each]. unfold bind at 1. cbn [fst snd].
    pose proof (download_paystub_calls server date url w) as Hc.
    destruct (download_paystub server date url w) as [[[]|e] w1]; [|done].
    intros Hrest. apply IH in Hrest. cbn [snd] in Hc.
    rewrite Hrest, Hc. cbn [map snd]. by rewrite <- app_assoc.
Qed.

(** X12. A run of [download_needed] that returns has made these calls
    and no others, in this order: the login with the fetcher's
    credentials, the landing page, the identity, the listing with the
    limit, and then one download for each item of the needed list, on
    the files as they were at the start, of the mapping that the answer
    to that listing call gives. *)
Theorem download_needed_calls (self : PayCheckFetcher) (limit : Z)
    (w w' : World) :
  download_needed server json_loads default_locale self limit w = (Ok tt, w') ->
  exists mapping,
    listing_mapping server json_loads
      (calls w ++ [login_request (username self) (password self);
                   landing_request; identity_request])
      limit "yes" mapping
    /\ NoDup (map fst mapping)
    /\ calls w'
       = calls w
         ++ [login_request (username self) (password self);
             landing_request; identity_request; listing_request limit "yes"]
         ++ map (fun item => download_request item.2)
              (get_needed_paystubs (files w) mapping).
Proof.
  unfold download_needed. unfold bind at 1.
  pose proof (log_in_world self w) as H1.
  destruct (log_in server self w) as [[[]|e] w1]; [|done]. cbn [snd] in H1.
  unfold bind at 1.
  pose proof (get_all_the_cookies_world self w1) as H2.
  destruct (get_all_the_cookies server self w1) as [[[]|e] w2]; [|done].
  cbn [snd] in H2. unfold bind at 1.
  pose proof (get_uid_world self w2) as [H3 H3'].
  destruct (get_uid server json_loads default_locale self w2)
    as [[[]|e] w3]; [|done].
  cbn [snd] in H3, H3'. unfold bind at 1.
  pose proof (get_paystub_urls_world self limit "yes" w3) as H4.
  pose proof (fun self' =>
    get_paystub_urls_result self self' limit "yes" w3) as H4'.
  pose proof (fun self' =>
    get_paystub_urls_built self self' limit "yes" w3) as H4''.
  destruct (get_paystub_urls server json_loads self limit "yes" w3)
    as [[self'|e] w4]; [|done].
  cbn [fst snd] in H4, H4', H4''.
  destruct (H4' self' eq_refl) as (_ & _ & Hnd).
  specialize (H4'' self' eq_refl).
  unfold bind at 1, needed_paystubs. intros Hloop.
  apply (download_all_calls _ w4 w') in Hloop.
  exists (paystub_url_by_date self').
  subst w4 w2 w1. cbn [with_call files calls] in *.
  rewrite H3 in H4''. cbn [with_call files calls] in H4''.
  rewrite <- !app_assoc in H4''. cbn [app] in H4''.
  split; [exact H4''|]. split; [exact Hnd|].
  rewrite Hloop. rewrite H3', H3. cbn [with_call files calls].
  by rewrite <- !app_assoc.
Qed.

(** X13. When the answer to the identity call is not JSON, the run
    stops with the decoding error after the first three calls: the
    listing is not asked for, nothing is downloaded or printed, and the
    files and cookies are as they were. *)
Theorem download_needed_identity_not_json (self : PayCheckFetcher)
    (limit : Z) (w : World) (r1 r2 r3 : Response) :
  let login := login_request (username self) (password self) in
  server (calls w) login = Some r1 ->
  server (calls w ++ [login]) landing_request = Some r2 ->
  server ((calls w ++ [login]) ++ [landing_request]) identity_request
  = Some r3 ->
  json_loads (text r3) = None ->
  download_needed server json_loads default_locale self limit w
  = (Raise JSONDecodeError,
     with_call (with_call (with_call w login) landing_request)
       identity_request).
Proof.
  cbn zeta. intros H1 H2 H3 Hjson.
  unfold download_needed, log_in, get_all_the_cookies, get_uid, session_post,
    session_get, bind, send, loads.
  unfold login_request in H1, H2, H3. unfold landing_request in H2, H3.
  unfold identity_request in H3.
  rewrite H1. cbn. rewrite H2. cbn. rewrite H3. cbn. by rewrite Hjson.
Qed.

(** ** More on [cli] *)

(** X14. The command returns a number only when the credentials file is
    missing: the number is then -1, and no call has been made and no
    session created. *)
Theorem cli_returns_code_only_without_credentials (creds : string)
    (limit : Z) (w w' : World) (code : Z) :
  cli server json_loads default_locale creds limit w = (Ok (Some code), w') ->
  code = -1
  /\ os_path_exists (files w) creds = false
  /\ calls w' = calls w
  /\ sessions_created w' = sessions_created w.
Proof.
  unfold cli, bind at 1, path_exists.
  destruct (os_path_exists (files w) creds) eqn:E; cbn [negb].
  - unfold bind at 1, read_file. destruct (read_text (files w) creds); [|done].
    destruct (take 2 (Py.split s "010")) as [|u [|p [|? ?]]]; try done.
    unfold bind. by destruct (with_session _ w) as [[[]|e] w2].
  - by intros [= <- <-].
Qed.

(** What any run of the command does to the world. *)
Lemma cli_evolution (creds : string) (limit : Z) (w : World) :
  let w' := (cli server json_loads default_locale creds limit w).2 in
  (exists more, calls w' = calls w ++ more)
  /\ (exists more, stdout w' = stdout w ++ more)
  /\ (forall path, is_Some (files w !! path) -> is_Some (files w' !! path))
  /\ (forall path,
        (forall date, path <> _expected_file_name date) ->
        files w' !! path = files w !! path)
  /\ exists k,
       (k <= 1)%nat
       /\ sessions_created w' = (sessions_created w + k)%nat
       /\ sessions_closed w' = (sessions_closed w + k)%nat.
Proof.
  assert (forall (A : Type) (l : list A), exists more, l = l ++ more) as Hsame.
  { intros A l. exists []. by rewrite app_nil_r. }
  assert (forall e,
    cli server json_loads default_locale creds limit w = (Raise e, w) ->
    let w' := (cli server json_loads default_locale creds limit w).2 in
    (exists more, calls w' = calls w ++ more)
    /\ (exists more, stdout w' = stdout w ++ more)
    /\ (forall path, is_Some (files w !! path) -> is_Some (files w' !! path))
    /\ (forall path,
          (forall date, path <> _expected_file_name date) ->
          files w' !! path = files w !! path)
    /\ exists k,
         (k <= 1)%nat
         /\ sessions_created w' = (sessions_created w + k)%nat
         /\ sessions_closed w' = (sessions_closed w + k)%nat) as Hraise.
  { intros e ->. cbn. split_and!; try apply Hsame; try done.
    exists 0%nat. lia. }
  destruct (os_path_exists (files w) creds) eqn:E.
  - destruct (read_text (files w) creds) as [content|] eqn:R.
    2:{ apply (Hraise FileNotFoundError).
        unfold cli, bind, path_exists, read_file. rewrite E. cbn [negb].
        by rewrite R. }
    assert (cli server json_loads default_locale creds limit w
            = match take 2 (Py.split content "010") with
              | [u; p] =>
                  (with_session
                     (download_needed server json_loads default_locale
                        (mkFetcher u p []) limit) ;;; ret None) w
              | _ => (Raise ValueError, w)
              end) as Hcli.
    { unfold cli, bind at 1, path_exists. rewrite E. cbn [negb].
      unfold bind at 1, read_file. rewrite R.
      by destruct (take 2 (Py.split content "010")) as [|u [|p [|? ?]]]. }
    destruct (take 2 (Py.split content "010")) as [|u [|p [|? ?]]];
      try by apply (Hraise ValueError).
    cbn zeta. rewrite Hcli. unfold bind, with_session.
    set (w1 := mkWorld (files w) (stdout w) (calls w) (jar w)
                 (S (sessions_created w)) (sessions_closed w)).
    pose proof (well_behaved_download_needed server json_loads default_locale
                  (mkFetcher u p []) limit w1) as Hev.
    destruct (download_needed _ _ _ _ _ w1) as [[[]|e] w2]; cbn [snd] in *;
      destruct Hev as (Hc & Ho & _ & Hk & Hp & Hs & Hs');
      (split_and!; try done; exists 1%nat; cbn; rewrite ?Hs, ?Hs'; cbn; lia).
  - assert (cli server json_loads default_locale creds limit w
            = (Ok (Some (-1)),
               mkWorld (files w) (stdout w ++ ["Couldn't find creds!"])
                 (calls w) (jar w) (sessions_created w) (sessions_closed w)))
      as Hcli.
    { unfold cli, bind, path_exists. by rewrite E. }
    cbn zeta. rewrite Hcli. cbn. split_and!; try apply Hsame; try done.
    + by eexists.
    + exists 0%nat. lia.
Qed.

(** X15. Whatever happens in a run of the command, also when it ends by
    an exception, no file that was there is removed, and a path that is
    not of the form [<date>.pdf] has afterwards what it had before. *)
Theorem cli_keeps_files (creds : string) (limit : Z) (w : World) :
  let w' := (cli server json_loads default_locale creds limit w).2 in
  (forall path, is_Some (files w !! path) -> is_Some (files w' !! path))
  /\ (forall path,
        (forall date, path <> _expected_file_name date) ->
        files w' !! path = files w !! path).
Proof.
  destruct (cli_evolution creds limit w) as (_ & _ & Hk & Hp & _). by split.
Qed.

(** X16. The command opens at most one session, and a session it opens
    is closed when the command ends, normally or by an exception; the
    calls and the output of before are still there, in front of its
    own. *)
Theorem cli_closes_its_session (creds : string) (limit : Z) (w : World) :
  let w' := (cli server json_loads default_locale creds limit w).2 in
  (exists k,
     (k <= 1)%nat
     /\ sessions_created w' = (sessions_created w + k)%nat
     /\ sessions_closed w' = (sessions_closed w + k)%nat)
  /\ (exists more, calls w' = calls w ++ more)
  /\ (exists more, stdout w' = stdout w ++ more).
Proof.
  destruct (cli_evolution creds limit w) as (Hc & Ho & _ & _ & Hs). by split.
Qed.

End Runs.

(** ** The further properties on test runs *)

Lemma download_all_one_call_each_witness :
  exists w',
    download_all Scenario.server
      [("2023-02-15", "https://my.adp.com/doc2"); ("2023-03-15", "/l2/doc3")]
      Scenario.start
    = (Ok tt, w')
    /\ calls w'
       = [download_request "https://my.adp.com/doc2";
          download_request "/l2/doc3"]
    /\ length (stdout w') = 2%nat.
Proof.
  apply (download_all_one_call_each Scenario.server).
  - by repeat constructor.
  - repeat constructor; by eexists.
  - cbn. repeat split; by eexists.
Defined.


Lemma download_paystub_connection_failure_witness :
  download_all (fun _ _ => None)
    [("2023-02-15", "/l2/doc2"); ("2023-03-15", "/l2/doc3")] (empty_world ∅)
  = (Raise ConnectionError,
     with_call (empty_world ∅) (download_request "/l2/doc2")).
Proof.
  apply (download_paystub_connection_failure (fun _ _ => None)). reflexivity.
Defined.

Lemma download_all_leaves_nothing_needed_witness :
  let server := fun (_ : list Request) (_ : Request) =>
                  Some (mkResponse 200 "" Scenario.pdf) in
  let mapping := [("2023-01-15", "/l2/doc1"); ("2023-02-15", "/l2/doc2")] in
  exists w',
    download_all server
      (get_needed_paystubs (files Scenario.start) mapping) Scenario.start
    = (Ok tt, w')
    /\ get_needed_paystubs (files w') mapping = [].
Proof.
  cbn zeta. apply download_all_leaves_nothing_needed.
  - by repeat constructor.
  - repeat constructor; by eexists.
  - vm_compute. repeat split. by eexists.
Defined.

Lemma get_uid_outcome_witness :
  let run := get_uid Scenario.server Scenario.json_loads Scenario.locale
               (mkFetcher "alice" "s3cret" []) Scenario.start in
  run.1 = Ok tt
  /\ jar run.2
     = [("idtoken", JStr "G3XYZ"); ("ADPLangLocalCookie", JStr "en_US")].
Proof.
  cbn zeta.
  apply (proj2 (proj2 (proj2 (proj2
           (get_uid_outcome Scenario.server Scenario.json_loads
              Scenario.locale (mkFetcher "alice" "s3cret" []) Scenario.start))
           (mkResponse 200 "identity" []) eq_refl))
           (JObj [("associateoid", JStr "G3XYZ")]) "G3XYZ" "en_US");
    reflexivity.
Defined.

Lemma get_paystub_urls_outcome_witness :
  NoDup (map fst [("2023-03-15", "/l2/doc3"); ("2023-01-15", "/l2/doc1");
                  ("2023-02-15", "https://my.adp.com/doc2")]).
Proof.
  apply (proj2 (get_paystub_urls_outcome Scenario.server Scenario.json_loads
                  (mkFetcher "alice" "s3cret" []) 30 "yes" Scenario.start)
           (mkFetcher "alice" "s3cret"
              [("2023-03-15", "/l2/doc3"); ("2023-01-15", "/l2/doc1");
               ("2023-02-15", "https://my.adp.com/doc2")])).
  reflexivity.
Defined.

Lemma download_needed_calls_witness :
  let self := mkFetcher "alice" "s3cret" [] in
  let run := download_needed Scenario.server Scenario.json_loads
               Scenario.locale self 30 Scenario.start in
  exists mapping,
    listing_mapping Scenario.server Scenario.json_loads
      (calls Scenario.start
       ++ [login_request "alice" "s3cret"; landing_request; identity_request])
      30 "yes" mapping
    /\ NoDup (map fst mapping)
    /\ calls run.2
       = calls Scenario.start
         ++ [login_request "alice" "s3cret"; landing_request;
             identity_request; listing_request 30 "yes"]
         ++ map (fun item => download_request item.2)
              (get_needed_paystubs (files Scenario.start) mapping).
Proof.
  cbn zeta.
  apply (download_needed_calls Scenario.server Scenario.json_loads
           Scenario.locale (mkFetcher "alice" "s3cret" []) 30 Scenario.start).
  by vm_compute.
Defined.

Lemma download_needed_identity_not_json_witness :
  let self := mkFetcher "alice" "s3cret" [] in
  download_needed Scenario.server (fun _ => None) Scenario.locale self 30
    Scenario.start
  = (Raise JSONDecodeError,
     with_call
       (with_call (with_call Scenario.start (login_request "alice" "s3cret"))
          landing_request)
       identity_request).
Proof.
  cbn zeta.
  apply (download_needed_identity_not_json Scenario.server (fun _ => None)
           Scenario.locale (mkFetcher "alice" "s3cret" []) 30 Scenario.start
           (mkResponse 200 "" []) (mkResponse 200 "" [])
           (mkResponse 200 "identity" [])); reflexivity.
Defined.

Lemma cli_returns_code_only_without_credentials_witness :
  os_path_exists (files (empty_world ∅)) "./.adp-pass" = false.
Proof.
  apply (cli_returns_code_only_without_credentials Scenario.server
           Scenario.json_loads Scenario.locale "./.adp-pass" 30
           (empty_world ∅)
           (cli Scenario.server Scenario.json_loads Scenario.locale
              "./.adp-pass" 30 (empty_world ∅)).2 (-1)).
  by vm_compute.
Defined.

(** ** File names, years and credentials *)

Lemma str_length_app (s t : string) :
  String.length (s +:+ t) = (String.length s + String.length t)%nat.
Proof. induction s as [|c s IH]; [done|]. rewrite str_app_cons. cbn. by rewrite IH. Qed.

Lemma expected_file_name_inj (date date' : string) :
  _expected_file_name date = _expected_file_name date' -> date = date'.
Proof.
  unfold _expected_file_name. revert date'.
  induction date as [|c date IH]; intros [|c' date'] H.
  - done.
  - apply (f_equal String.length) in H. rewrite !str_length_app in H.
    cbn in H. lia.
  - apply (f_equal String.length) in H. rewrite !str_length_app in H.
    cbn in H. lia.
  - rewrite !str_app_cons in H. injection H as -> H. f_equal. by apply IH.
Qed.

(** X17. For two different dates in the format [YYYY-MM-DD], a
    download for the one leaves the file of the other as it was,
    whatever the answer. *)
Theorem download_paystub_other_dates
    (server : list Request -> Request -> option Response)
    (date date' url : string) (t t' : N * N * N) (w : World) :
  parse_date date = Some t -> parse_date date' = Some t' ->
  date <> date' ->
  files (download_paystub server date url w).2 !! _expected_file_name date'
  = files w !! _expected_file_name date'.
Proof.
  intros Hdate _ Hne.
  assert (_expected_file_name date <> _expected_file_name date') as Hname
    by (intros H; by apply Hne, expected_file_name_inj).
  unfold download_paystub, session_get, bind, send.
  destruct (server (calls w) _) as [response|]; [|done].
  destruct (negb (status_code response =? 200)); [done|].
  rewrite (open_wb_plain _ _ (parse_date_plain _ _ Hdate)). cbn.
  by rewrite lookup_alter_ne, lookup_insert_ne.
Qed.

Lemma download_paystub_other_dates_witness :
  files (download_paystub Scenario.server "2023-02-15"
           "https://my.adp.com/doc2" Scenario.start).2
    !! _expected_file_name "2023-01-15"
  = files Scenario.start !! _expected_file_name "2023-01-15".
Proof.
  apply (download_paystub_other_dates Scenario.server "2023-02-15"
           "2023-01-15" _ (2023, 2, 15)%N (2023, 1, 15)%N);
    [reflexivity | reflexivity | discriminate].
Defined.

(** X18. The year that [get_needed_paystubs] takes from a date is the
    portion of the date before its first ['-'], and nothing else is:
    it holds no ['-'], and the date is that portion alone or that
    portion, a ['-'] and a rest. *)
Theorem year_of_characterisation (date year : string) :
  before_first "-" date year <-> year = year_of date.
Proof.
  split.
  - intros H. symmetry. by apply year_of_unique.
  - intros ->. apply year_of_before_first.
Qed.

Lemma universal_newlines_plain (s t : string) :
  Py.has_char s "013" = false ->
  universal_newlines (s +:+ t) = s +:+ universal_newlines t.
Proof.
  induction s as [|c s IH]; [done|]. cbn [Py.has_char].
  intros [Hc Hs]%orb_false_iff. rewrite !str_app_cons.
  cbn [universal_newlines]. rewrite Hc. by rewrite (IH Hs).
Qed.

(** X19. A credentials file written with carriage return and line feed
    at the end of its lines is read as the same text as one written
    with line feeds alone, so the user name and the password taken from
    it carry no carriage return. *)
Theorem credentials_crlf (fs : filesystem) (creds user pass : string) :
  let cr_lf := String "013" (String "010" EmptyString) in
  let lf := String "010" EmptyString in
  Py.has_char user "013" = false -> Py.has_char user "010" = false ->
  Py.has_char pass "013" = false -> Py.has_char pass "010" = false ->
  fs !! creds
  = Some (String.list_byte_of_string (user +:+ cr_lf +:+ pass +:+ cr_lf)) ->
  read_text fs creds = Some (user +:+ lf +:+ pass +:+ lf)
  /\ first_two_lines (user +:+ lf +:+ pass +:+ lf) user pass.
Proof.
  cbn zeta. intros Hu Hu' Hp Hp' Hfile. split.
  - unfold read_text. rewrite Hfile. cbn [fmap option_fmap option_map].
    rewrite String.string_of_list_byte_of_string.
    rewrite (universal_newlines_plain _ _ Hu), !str_app_cons, str_app_nil_l.
    change (universal_newlines (String "013" (String "010" ?t)))
      with (String "010" (universal_newlines t)).
    rewrite (universal_newlines_plain _ _ Hp). done.
  - split; [done|]. exists (pass +:+ String "010" ""). split; [done|].
    split; [done|]. right. by exists "".
Qed.

Lemma credentials_crlf_witness :
  first_two_lines
    ("alice" +:+ String "010" EmptyString +:+ "s3cret"
     +:+ String "010" EmptyString) "alice" "s3cret".
Proof.
  refine (proj2 (credentials_crlf
            {[ "./.adp-pass" := String.list_byte_of_string
                 ("alice" +:+ String "013" (String "010" EmptyString)
                  +:+ "s3cret" +:+ String "013" (String "010" EmptyString)) ]}
            "./.adp-pass" "alice" "s3cret"
            eq_refl eq_refl eq_refl eq_refl _)).
  by vm_compute.
Defined.

(** ** A download into a directory that is not there *)

Example download_into_missing_directory :
  download_paystub Scenario.server "2023/04/15" "https://my.adp.com/doc2"
    Scenario.start
  = (Raise FileNotFoundError,
     with_call Scenario.start (download_request "https://my.adp.com/doc2")).
Proof. by vm_compute. Qed.

Example download_into_directory :
  let disk : filesystem := {[ "2023/04/" := [] ]} in
  files (download_paystub Scenario.server "2023/04/15"
           "https://my.adp.com/doc2" (empty_world disk)).2
    !! "2023/04/15.pdf"
  = Some Scenario.pdf.
Proof. by vm_compute. Qed.
